(** * Agent_5.0: the audio pipeline and the TikTok search, verified

    A shallow embedding of [scripts/audio_processor.py] and
    [scripts/tiktok_search.py].  Python values are an inductive type,
    exceptions are data, every function that can raise returns an [outcome],
    and the file system and the external tools (yt-dlp, FFmpeg, the Whisper
    service, the TikTok client) are an explicit world and an environment of
    oracles, so that "which tool was called" and "which file is left" are
    statements about values. *)

From Stdlib Require Import ZArith String Ascii List Bool Lia.
From Stdlib Require Import PrimFloat SpecFloat FloatOps Uint63.
From stdpp Require Import gmap strings pretty.
Import ListNotations.

Set Warnings "-inexact-float,-register-all".
Local Open Scope string_scope.
Local Open Scope Z_scope.

(** ** Python values, exceptions and outcomes *)

Module Py.

(** A Python value as the two scripts handle them: what [json] can hold. *)
Inductive pyval : Type :=
| PyNone
| PyBool (b : bool)
| PyInt (z : Z)
| PyFloat (f : float)
| PyStr (s : string)
| PyList (l : list pyval)
| PyDict (d : list (string * pyval)).

(** Exceptions below [Exception].  [Exception msg] is an instance of the
    base class itself, as [raise Exception(msg)] builds it;
    [TimeoutExpired] is [subprocess.TimeoutExpired]; [OtherError cls msg] is
    an instance of any other subclass.  Every constructor carries [str(e)]. *)
Inductive exn : Type :=
| Exception (msg : string)
| TimeoutExpired (msg : string)
| OtherError (cls msg : string).

Definition str_exn (e : exn) : string :=
  match e with
  | Exception msg => msg
  | TimeoutExpired msg => msg
  | OtherError _ msg => msg
  end.

Inductive outcome (A : Type) : Type :=
| Return (a : A)
| Raise (e : exn).
Arguments Return {A} a.
Arguments Raise {A} e.

(** [bool(v)]: the truth value Python's [if], [or] and [any] test. *)
Definition truthy (v : pyval) : bool :=
  match v with
  | PyNone => false
  | PyBool b => b
  | PyInt z => negb (z =? 0)
  | PyFloat f => negb (PrimFloat.eqb f 0)
  | PyStr s => negb (String.eqb s "")
  | PyList l => match l with [] => false | _ => true end
  | PyDict d => match d with [] => false | _ => true end
  end.

(** [a or b]. *)
Definition py_or (a b : pyval) : pyval := if truthy a then a else b.

(** ** Computations that may raise, over a state [S] *)

Definition St (S A : Type) : Type := S -> outcome A * S.

Definition ret {S A} (a : A) : St S A := fun s => (Return a, s).
Definition raise {S A} (e : exn) : St S A := fun s => (Raise e, s).
Definition bind {S A B} (c : St S A) (k : A -> St S B) : St S B :=
  fun s => match c s with
           | (Return a, s') => k a s'
           | (Raise e, s') => (Raise e, s')
           end.

(** [try: c  except Exception as e: h e]. *)
Definition try_except {S A} (c : St S A) (h : exn -> St S A) : St S A :=
  fun s => match c s with
           | (Return a, s') => (Return a, s')
           | (Raise e, s') => h e s'
           end.

(** [try: c  finally: f].  The finally suite runs on both ways out of [c];
    an exception of its own replaces the outcome of [c]. *)
Definition try_finally {S A} (c : St S A) (f : St S unit) : St S A :=
  fun s => match c s with
           | (o, s') => match f s' with
                        | (Return _, s'') => (o, s'')
                        | (Raise e, s'') => (Raise e, s'')
                        end
           end.

(** A function's local variables [L] beside the state its callees see. *)
Definition lift {L S A} (c : St S A) : St (L * S) A :=
  fun '(l, s) => match c s with (o, s') => (o, (l, s')) end.
Definition get_local {L S} : St (L * S) L := fun '(l, s) => (Return l, (l, s)).
Definition set_local {L S} (l : L) : St (L * S) unit := fun '(_, s) => (Return tt, (l, s)).

Declare Scope py_scope.
Delimit Scope py_scope with py.
Notation "x <- c ;; k" := (bind c (fun x => k))
  (at level 100, c at next level, right associativity) : py_scope.
Notation "c ;; k" := (bind c (fun _ => k))
  (at level 100, right associativity) : py_scope.

(** The same notation for computations with no state. *)
Definition obind {A B} (o : outcome A) (k : A -> outcome B) : outcome B :=
  match o with
  | Return a => k a
  | Raise e => Raise e
  end.

Declare Scope outcome_scope.
Delimit Scope outcome_scope with out.
Notation "x <- c ;; k" := (obind c (fun x => k))
  (at level 100, c at next level, right associativity) : outcome_scope.

Definition of_outcome {S A} (o : outcome A) : St S A := fun s => (o, s).

(** ** Numbers *)

Definition round_half_even (n d : Z) : Z :=
  let q := n / d in
  let r := n mod d in
  if 2 * r <? d then q
  else if d <? 2 * r then q + 1
  else if Z.even q then q else q + 1.

(** [n / (b * 2^e)] as a fraction of two integers. *)
Definition scaled (n b e : Z) : Z * Z :=
  if 0 <=? e then (n, b * 2 ^ e) else (n * 2 ^ (- e), b).

(** [a / b] on two [int]s, [0 < b <= 2^53]: the quotient rounded once to
    the nearest binary64 value, ties to even, as CPython's
    [long_true_divide] gives it, and [OverflowError] when that value is not
    finite.  The exponent [e] puts the quotient in [[2^52, 2^53)], so [m] is
    its 53-bit significand and the result is [m * 2^e]. *)
Definition int_truediv (a b : Z) : outcome float :=
  if a =? 0 then Return 0%float
  else
    let n := Z.abs a in
    let e0 := Z.log2 n - Z.log2 b - 53 in
    let e := if 2 ^ 53 * snd (scaled n b e0) <=? fst (scaled n b e0)
             then e0 + 1 else e0 in
    let m := round_half_even (fst (scaled n b e)) (snd (scaled n b e)) in
    if (e <? 971) || ((e =? 971) && (m <? 2 ^ 53))
    then
      let x := Z.ldexp (of_uint63 (Uint63.of_Z m)) e in
      Return (if a <? 0 then (- x)%float else x)
    else Raise (OtherError "OverflowError" "integer division result too large for a float").

(** [f"{x:.1f}"]: the exact value of [x] rounded to one decimal, ties to
    even. *)
Definition format_1f (x : float) : string :=
  match Prim2SF x with
  | S754_nan => "nan"
  | S754_infinity s => if s then "-inf" else "inf"
  | S754_zero s => if s then "-0.0" else "0.0"
  | S754_finite s m e =>
      let t := if 0 <=? e then Z.pos m * 10 * 2 ^ e
               else round_half_even (Z.pos m * 10) (2 ^ (- e)) in
      (if s then "-" else "") +:+ pretty (t / 10) +:+ "." +:+ pretty (t mod 10)
  end.

(** ** Strings *)

(** [needle in s] on strings. *)
Fixpoint contains (needle s : string) : bool :=
  String.prefix needle s ||
  match s with
  | EmptyString => false
  | String _ s' => contains needle s'
  end.

Fixpoint replace_from (old new s : string) (skip : nat) : string :=
  match s with
  | EmptyString => EmptyString
  | String c s' =>
      match skip with
      | S k => replace_from old new s' k
      | O => if String.prefix old s
             then new +:+ replace_from old new s' (String.length old - 1)
             else String c (replace_from old new s' 0)
      end
  end.

(** [s.replace(old, new)] for a non-empty [old] (the scripts pass ['.mp3'] and
    [' ']): the occurrences of [old] are replaced from left to right, without
    overlap. *)
Definition replace (old new s : string) : string := replace_from old new s 0.

(** *** [repr] of a string *)

Definition double_quote : ascii := ascii_of_nat 34.

Definition hex_digit (n : nat) : ascii :=
  nth n ["0"; "1"; "2"; "3"; "4"; "5"; "6"; "7"; "8"; "9";
         "a"; "b"; "c"; "d"; "e"; "f"]%char "0"%char.

(** One character between the quotes: the quote in use and the backslash
    are escaped, control characters are written [\t], [\n], [\r] or [\xhh],
    and the rest stands as it is. *)
Definition repr_char (quote c : ascii) : string :=
  let n := nat_of_ascii c in
  if Ascii.eqb c quote || Ascii.eqb c "\"
  then String "\" (String c EmptyString)
  else if (n =? 9)%nat then "\t"
  else if (n =? 10)%nat then "\n"
  else if (n =? 13)%nat then "\r"
  else if (n <? 32)%nat || (n =? 127)%nat
  then String "\" (String "x" (String (hex_digit (n / 16)) (String (hex_digit (n mod 16))
         EmptyString)))
  else String c EmptyString.

Fixpoint repr_body (quote : ascii) (s : string) : string :=
  match s with
  | EmptyString => EmptyString
  | String c s' => repr_char quote c +:+ repr_body quote s'
  end.

(** [repr(s)], the text of [%R] in the messages of [OSError] and
    [ValueError], for a string whose characters beyond ASCII are printable:
    the quote is ['] unless the string holds one and no double quote. *)
Definition repr_str (s : string) : string :=
  let holds c := existsb (Ascii.eqb c) (list_ascii_of_string s) in
  let quote := if holds "'"%char && negb (holds double_quote) then double_quote else "'"%char in
  String quote (repr_body quote s +:+ String quote EmptyString).

End Py.

(** ** scripts/audio_processor.py *)

Module AudioProcessor.
Import Py.
Local Open Scope py_scope.

(** *** [is_youtube_url]: the pattern and [re.search] *)

(** The fragment of [re] syntax the pattern uses. *)
Inductive regex : Type :=
| Lit (s : string)
| Seq (r1 r2 : regex)
| Alt (r1 r2 : regex)
| Opt (r : regex).

Fixpoint skip (n : nat) (s : string) : string :=
  match n, s with
  | S k, String _ s' => skip k s'
  | _, _ => s
  end.

(** Every way [r] matches a prefix of [s]: the rests of [s] after a match. *)
Fixpoint rmatch (r : regex) (s : string) : list string :=
  match r with
  | Lit l => if String.prefix l s then [skip (String.length l) s] else []
  | Seq r1 r2 => flat_map (rmatch r2) (rmatch r1 s)
  | Alt r1 r2 => rmatch r1 s ++ rmatch r2 s
  | Opt r1 => rmatch r1 s ++ [s]
  end.

Definition matches_at (r : regex) (s : string) : bool :=
  match rmatch r s with [] => false | _ => true end.

(** [bool(re.search(r, s))]: [r] matches at some position of [s]. *)
Fixpoint re_search (r : regex) (s : string) : bool :=
  matches_at r s ||
  match s with
  | EmptyString => false
  | String _ s' => re_search r s'
  end.

(** [(https?://)?(www\.)?(youtube\.com/(watch\?v=|embed/|v/)|youtu\.be/)] *)
Definition youtube_pattern : regex :=
  Seq (Opt (Seq (Lit "http") (Seq (Opt (Lit "s")) (Lit "://"))))
    (Seq (Opt (Lit "www."))
       (Alt (Seq (Lit "youtube.com/")
               (Alt (Lit "watch?v=") (Alt (Lit "embed/") (Lit "v/"))))
            (Lit "youtu.be/"))).

Definition is_youtube_url (url : string) : bool := re_search youtube_pattern url.

(** *** The world: files and the external tools *)

(** A call that leaves the process. *)
Inductive call : Type :=
| YtDlp (url outtmpl : string)
| Subprocess (cmd : list string) (timeout : Z)
| Whisper (path : string).

(** A file size: [st_size] is an [off_t], 63 bits and a sign. *)
Record off_t : Type := Off {
  size_of : Z;
  size_ok : (0 <=? size_of) && (size_of <? 2 ^ 63) = true
}.

(** The local files, each with its size in bytes, and the calls made so far,
    oldest first. *)
Record world : Type := World {
  files : gmap string off_t;
  calls : list call
}.

Record CompletedProcess : Type := {
  returncode : Z;
  stdout : string;
  stderr : string
}.

(** The [verbose_json] answer: [duration] is [None] when the answer has no
    such attribute ([getattr(transcript, 'duration', None)]). *)
Record Transcript : Type := {
  text : string;
  language : string;
  duration : option float
}.

(** What the outside decides.  A tool may change the files in any way. *)
Record Env : Type := {
  (** the name [tempfile.NamedTemporaryFile(suffix='.mp3', delete=False)]
      creates, or its error *)
  tempfile_name : gmap string off_t -> outcome string;
  (** [ydl.download([url])] under the template [outtmpl] *)
  ytdlp_error : string -> string -> option exn;
  ytdlp_files : string -> string -> gmap string off_t -> gmap string off_t;
  (** [subprocess.run(cmd, capture_output=True, text=True, timeout=t)] *)
  run_process : list string -> Z -> outcome CompletedProcess;
  run_files : list string -> gmap string off_t -> gmap string off_t;
  (** [audio.transcriptions.create(model="whisper-1", file=...)] *)
  transcriptions_create : string -> outcome Transcript;
  (** the error of [os.unlink(path)], if any *)
  unlink_error : string -> option exn
}.

(** [os.stat]: the empty path names no file. *)
Definition stat (fs : gmap string off_t) (path : string) : option Z :=
  if String.eqb path "" then None else size_of <$> fs !! path.

Definition os_path_exists (path : string) : St world bool :=
  fun w => (Return (match stat (files w) path with Some _ => true | None => false end), w).

Definition os_path_getsize (path : string) : St world Z :=
  fun w => match stat (files w) path with
           | Some size => (Return size, w)
           | None => (Raise (OtherError "FileNotFoundError"
                               ("[Errno 2] No such file or directory: " +:+ repr_str path)), w)
           end.

Definition os_unlink (E : Env) (path : string) : St world unit :=
  fun w => match unlink_error E path with
           | Some e => (Raise e, w)
           | None => (Return tt, World (delete path (files w)) (calls w))
           end.

Definition NamedTemporaryFile (E : Env) : St world string :=
  fun w => match tempfile_name E (files w) with
           | Return name => (Return name, World (<[name := Off 0 eq_refl]> (files w)) (calls w))
           | Raise e => (Raise e, w)
           end.

Definition ydl_download (E : Env) (url outtmpl : string) : St world unit :=
  fun w =>
    let w' := World (ytdlp_files E url outtmpl (files w)) (calls w ++ [YtDlp url outtmpl]) in
    match ytdlp_error E url outtmpl with
    | None => (Return tt, w')
    | Some e => (Raise e, w')
    end.

Definition subprocess_run (E : Env) (cmd : list string) (timeout : Z)
  : St world CompletedProcess :=
  fun w => (run_process E cmd timeout,
            World (run_files E cmd (files w)) (calls w ++ [Subprocess cmd timeout])).

(** [open(path, "rb")]. *)
Definition open_rb (path : string) : St world unit :=
  fun w => match stat (files w) path with
           | Some _ => (Return tt, w)
           | None => (Raise (OtherError "FileNotFoundError"
                               ("[Errno 2] No such file or directory: " +:+ repr_str path)), w)
           end.

(** The [with open(...)] suite of [transcribe_audio]. *)
Definition whisper_transcribe (E : Env) (audio_path : string) : St world Transcript :=
  open_rb audio_path ;;
  fun w => (transcriptions_create E audio_path,
            World (files w) (calls w ++ [Whisper audio_path])).

(** *** The methods *)

(** A result dictionary. *)
Abbreviation dict := (gmap string pyval).

Definition failure (message : string) : dict :=
  <["success" := PyBool false]> (<["transcript" := PyStr ""]>
    (<["language" := PyStr "en"]> (<["message" := PyStr message]> ∅))).

(** Lines 43-47 and again 93-97: [if output_path is None: ...]. *)
Definition output_file (E : Env) (output_path : option string) : St world string :=
  match output_path with
  | None => NamedTemporaryFile E
  | Some p => ret p
  end.

Definition download_youtube_audio (E : Env) (youtube_url : string)
    (output_path : option string) : St world string :=
  try_except
    (output_path <- output_file E output_path ;;
     ydl_download E youtube_url (replace ".mp3" ".%(ext)s" output_path) ;;
     ret output_path)
    (fun e => raise (Exception ("YouTube download failed: " +:+ str_exn e))).

Definition ffmpeg_cmd (video_url output_path : string) : list string :=
  ["ffmpeg"; "-i"; video_url; "-q:a"; "2"; "-map"; "a"; "-y"; output_path].

Definition extract_audio_from_video (E : Env) (video_url : string)
    (output_path : option string) : St world string :=
  try_except
    (if is_youtube_url video_url
     then download_youtube_audio E video_url output_path
     else
       output_path <- output_file E output_path ;;
       result <- subprocess_run E (ffmpeg_cmd video_url output_path) 60 ;;
       if negb (returncode result =? 0)
       then raise (Exception ("FFmpeg failed: " +:+ stderr result))
       else ret output_path)
    (fun e => match e with
              | TimeoutExpired _ => raise (Exception "Audio extraction timeout")
              | _ => raise e
              end).

(** [file_size/1024/1024] under [:.1f]. *)
Definition size_in_mb (file_size : Z) : outcome string :=
  match int_truediv file_size 1024 with
  | Return q => Return (format_1f (q / 1024)%float)
  | Raise e => Raise e
  end.

(** Lines 164-170: the dictionary of a successful transcription. *)
Definition transcribed (transcript : Transcript) : dict :=
  <["success" := PyBool true]> (<["transcript" := PyStr (text transcript)]>
    (<["language" := PyStr (language transcript)]>
       (<["duration" := match duration transcript with
                        | Some d => PyFloat d
                        | None => PyNone
                        end]>
          (<["message" := PyStr ("Транскрипция выполнена успешно ("
                                 +:+ language transcript +:+ ")")]> ∅)))).

Definition transcribe_audio (E : Env) (audio_path : string) : St world dict :=
  try_except
    (file_size <- os_path_getsize audio_path ;;
     if 25 * 1024 * 1024 <? file_size
     then
       mb <- of_outcome (size_in_mb file_size) ;;
       ret (failure ("Файл слишком большой: " +:+ mb +:+ "MB (максимум 25MB)"))
     else
       transcript <- whisper_transcribe E audio_path ;;
       ret (transcribed transcript))
    (fun e => ret (failure ("Ошибка транскрипции: " +:+ str_exn e))).

Definition type_error (operand : string) : exn :=
  OtherError "TypeError"
    ("unsupported operand type(s) for /: '" +:+ operand +:+ "' and 'int'").

(** [duration / 60 * 0.006]. *)
Definition cost_of (duration : pyval) : outcome float :=
  match duration with
  | PyFloat d => Return (d / 60 * 0.006)%float
  | PyInt z =>
      match int_truediv z 60 with
      | Return q => Return (q * 0.006)%float
      | Raise e => Raise e
      end
  | PyBool b =>
      match int_truediv (Z.b2z b) 60 with
      | Return q => Return (q * 0.006)%float
      | Raise e => Raise e
      end
  | PyNone => Raise (type_error "NoneType")
  | PyStr _ => Raise (type_error "str")
  | PyList _ => Raise (type_error "list")
  | PyDict _ => Raise (type_error "dict")
  end.

(** [d.get(key)]. *)
Definition dict_get (d : dict) (key : string) : pyval :=
  match d !! key with Some v => v | None => PyNone end.

(** Lines 203-206: the cost estimate. *)
Definition attach_estimated_cost (transcription_result : dict) : outcome dict :=
  if truthy (dict_get transcription_result "duration")
  then match cost_of (dict_get transcription_result "duration") with
       | Return cost => Return (<["estimated_cost" := PyFloat cost]> transcription_result)
       | Raise e => Raise e
       end
  else Return transcription_result.

(** [self]: the two methods [process_video] calls through it. *)
Record Self : Type := {
  self_extract_audio_from_video : string -> option string -> St world string;
  self_transcribe_audio : string -> St world dict
}.

(** The finally suite of [process_video]; the local is [audio_path]. *)
Definition cleanup_files (E : Env) (cleanup : bool) : St (option string * world) unit :=
  audio_path <- get_local ;;
  match audio_path with
  | Some p =>
      if cleanup && truthy (PyStr p)
      then
        there <- lift (os_path_exists p) ;;
        if (there : bool)
        then try_except (lift (os_unlink E p)) (fun _ => ret tt)
        else ret tt
      else ret tt
  | None => ret tt
  end.

Definition process_video (E : Env) (self : Self) (video_url : string) (cleanup : bool)
  : St world dict :=
  fun w =>
    match
      try_finally
        (try_except
           (audio_path <- lift (self_extract_audio_from_video self video_url None) ;;
            set_local (Some audio_path) ;;
            transcription_result <- lift (self_transcribe_audio self audio_path) ;;
            of_outcome (attach_estimated_cost transcription_result))
           (fun e => ret (failure ("Ошибка обработки видео: " +:+ str_exn e))))
        (cleanup_files E cleanup)
        (None, w)
    with
    | (o, (_, w')) => (o, w')
    end.

(** The object [AudioProcessor()] builds. *)
Definition audio_processor (E : Env) : Self := {|
  self_extract_audio_from_video := extract_audio_from_video E;
  self_transcribe_audio := transcribe_audio E
|}.

End AudioProcessor.

(** ** scripts/tiktok_search.py *)

Module TikTokSearch.
Import Py.

(** The string built-ins whose meaning rests on Unicode tables: [s.lower()],
    [s.split()] and [str(v)]. *)
Class StrOps : Type := {
  str_lower : string -> string;
  str_split : string -> list string;
  py_str : pyval -> string
}.

(** A [Video] of the client library: [video.id], what evaluating
    [video.author.username] gives (a string; [None], the value the library
    leaves there when the data names no author; or an exception, such as
    [AttributeError] when there is no author object) and [video.as_dict]. *)
Record Video : Type := {
  video_id : string;
  author_username : outcome (option string);
  as_dict : pyval
}.

(** What [async for video in ...] yields: items in order, until the feed ends
    or the library raises. *)
Inductive feed : Type :=
| FeedEnd
| FeedRaise (e : exn)
| FeedItem (video : Video) (rest : feed).

Record Env : Type := {
  (** [os.environ.get("ms_token", None)] *)
  ms_token : option string;
  (** [TikTokApi()] and entering the [async with] *)
  api_enter : option exn;
  (** [api.create_sessions(ms_tokens=[ms_token], num_sessions=1, sleep_after=3)] *)
  create_sessions : string -> option exn;
  (** [api.hashtag(name=...).videos(count=...)] *)
  hashtag_videos : string -> Z -> feed;
  (** [api.trending.videos(count=...)] *)
  trending_videos : Z -> feed;
  (** leaving the [async with] *)
  api_exit : option exn
}.

Record SearchResult : Type := {
  success : bool;
  videos : list pyval;
  total_found : Z;
  message : string
}.

(** The locals the two loops share. *)
Record locals : Type := Locals {
  videos_var : list pyval;
  video_count_var : Z
}.

Definition type_name (v : pyval) : string :=
  match v with
  | PyNone => "NoneType"
  | PyBool _ => "bool"
  | PyInt _ => "int"
  | PyFloat _ => "float"
  | PyStr _ => "str"
  | PyList _ => "list"
  | PyDict _ => "dict"
  end.

Definition attribute_error (v : pyval) (attr : string) : exn :=
  OtherError "AttributeError"
    ("'" +:+ type_name v +:+ "' object has no attribute '" +:+ attr +:+ "'").

Fixpoint assoc (key : string) (d : list (string * pyval)) : option pyval :=
  match d with
  | [] => None
  | (k, v) :: rest => if String.eqb k key then Some v else assoc key rest
  end.

(** [d.get(key, default)]: only a [dict] has the method. *)
Definition get (d : pyval) (key : string) (default : pyval) : outcome pyval :=
  match d with
  | PyDict kvs => Return (match assoc key kvs with Some v => v | None => default end)
  | _ => Raise (attribute_error d "get")
  end.

(** [for x in v]. *)
Definition py_iter (v : pyval) : outcome (list pyval) :=
  match v with
  | PyList l => Return l
  | PyDict d => Return (map (fun kv => PyStr (fst kv)) d)
  | PyStr s => Return (map (fun c => PyStr (String c EmptyString)) (list_ascii_of_string s))
  | _ => Raise (OtherError "TypeError" ("'" +:+ type_name v +:+ "' object is not iterable"))
  end.

(** [[tag.get('hashtagName', '') for tag in tags if tag.get('hashtagName')]] *)
Fixpoint hashtag_names (tags : list pyval) : outcome (list pyval) :=
  match tags with
  | [] => Return []
  | tag :: rest =>
      (named <- get tag "hashtagName" PyNone ;;
       if truthy named
       then name <- get tag "hashtagName" (PyStr "") ;;
            names <- hashtag_names rest ;;
            Return (name :: names)
       else hashtag_names rest)%out
  end.

(** A username as a value, and as [f"{video.author.username}"] writes it. *)
Definition username_value (username : option string) : pyval :=
  match username with
  | Some u => PyStr u
  | None => PyNone
  end.

Definition format_username (username : option string) : string :=
  match username with
  | Some u => u
  | None => "None"
  end.

Section Records.
Context {ops : StrOps}.
Local Open Scope outcome_scope.

(** The dictionary both tiers build; they differ in the title used when the
    description is empty. *)
Definition video_data (default_title : string) (video : Video) (video_dict : pyval)
  : outcome pyval :=
  desc <- get video_dict "desc" (PyStr "") ;;
  let title := py_or desc (PyStr default_title) in
  desc <- get video_dict "desc" (PyStr "") ;;
  let description := py_or desc (PyStr "") in
  user <- author_username video ;;
  let url := "https://www.tiktok.com/@" +:+ format_username user +:+ "/video/"
             +:+ video_id video in
  v <- get video_dict "video" (PyDict []) ;;
  cover <- get v "cover" (PyStr "") ;;
  stats <- get video_dict "stats" (PyDict []) ;;
  play_count <- get stats "playCount" (PyInt 0) ;;
  stats <- get video_dict "stats" (PyDict []) ;;
  digg_count <- get stats "diggCount" (PyInt 0) ;;
  stats <- get video_dict "stats" (PyDict []) ;;
  comment_count <- get stats "commentCount" (PyInt 0) ;;
  v <- get video_dict "video" (PyDict []) ;;
  duration <- get v "duration" (PyInt 30) ;;
  create_time <- get video_dict "createTime" (PyStr "") ;;
  user' <- author_username video ;;
  text_extra <- get video_dict "textExtra" (PyList []) ;;
  tags <- py_iter text_extra ;;
  hashtags <- hashtag_names tags ;;
  has_music <- get video_dict "music" PyNone ;;
  music <- (if truthy has_music
            then m <- get video_dict "music" (PyDict []) ;; get m "title" (PyStr "")
            else Return (PyStr "")) ;;
  Return (PyDict [
    ("video_id", PyStr (video_id video));
    ("platform", PyStr "tiktok");
    ("title", title);
    ("description", description);
    ("url", PyStr url);
    ("thumbnail_url", py_or cover (PyStr ""));
    ("views", py_or play_count (PyInt 0));
    ("likes", py_or digg_count (PyInt 0));
    ("comments", py_or comment_count (PyInt 0));
    ("duration", py_or duration (PyInt 30));
    ("published_at", PyStr (py_str create_time));
    ("author", username_value user');
    ("hashtags", PyList hashtags);
    ("music", music)
  ]).

(** [video_data['title'][:50]] in the log line of the hashtag tier. *)
Definition title_prefix (title : pyval) : outcome unit :=
  match title with
  | PyStr _ | PyList _ => Return tt
  | _ => Raise (OtherError "TypeError"
                  ("'" +:+ type_name title +:+ "' object is not subscriptable"))
  end.

(** [video_dict.get('desc', '').lower()]. *)
Definition lower_desc (video_dict : pyval) : outcome string :=
  desc <- get video_dict "desc" (PyStr "") ;;
  match desc with
  | PyStr s => Return (str_lower s)
  | _ => Raise (attribute_error desc "lower")
  end.

(** [any(keyword.lower() in desc for keyword in query.split())]. *)
Definition relevant (query desc : string) : bool :=
  existsb (fun keyword => contains (str_lower keyword) desc) (str_split query).

End Records.

Section Search.
Context {ops : StrOps}.
Variable E : Env.
Variables (query : string) (max_results : Z).
Local Open Scope py_scope.

Definition append_video (video_data : pyval) : St locals unit :=
  fun l => (Return tt, Locals (videos_var l ++ [video_data]) (video_count_var l)).

Definition count_video : St locals unit :=
  fun l => (Return tt, Locals (videos_var l) (video_count_var l + 1)).

Definition reset_count : St locals unit :=
  fun l => (Return tt, Locals (videos_var l) 0).

(** [videos = []] *)
Definition clear_videos : St locals unit :=
  fun l => (Return tt, Locals [] (video_count_var l)).

Definition limit_reached : St locals bool :=
  fun l => (Return (max_results <=? video_count_var l), l).

(** The suite of the hashtag loop for one video: lines 59-85. *)
Definition hashtag_item (video : Video) : St locals unit :=
  try_except
    (video_data' <- of_outcome
       (video_data ("TikTok video about " +:+ query) video (as_dict video)) ;;
     append_video video_data' ;;
     count_video ;;
     title <- of_outcome (get video_data' "title" PyNone) ;;
     of_outcome (title_prefix title))
    (fun _ => ret tt).

Fixpoint hashtag_loop (f : feed) : St locals unit :=
  match f with
  | FeedEnd => ret tt
  | FeedRaise e => raise e
  | FeedItem video rest =>
      full <- limit_reached ;;
      if (full : bool) then ret tt
      else (hashtag_item video ;; hashtag_loop rest)
  end.

(** The try suite of one trending video, lines 98-121: no exception left it
    ([true]) or the handler ran [continue] ([false]). *)
Definition trending_item (video : Video) : St locals bool :=
  try_except
    (desc <- of_outcome (lower_desc (as_dict video)) ;;
     if relevant query desc
     then
       video_data' <- of_outcome (video_data "Trending TikTok video" video (as_dict video)) ;;
       append_video video_data' ;;
       title <- of_outcome (get video_data' "title" PyNone) ;;
       of_outcome (title_prefix title) ;;
       ret true
     else ret true)
    (fun _ => ret false).

Fixpoint trending_loop (f : feed) : St locals unit :=
  match f with
  | FeedEnd => ret tt
  | FeedRaise e => raise e
  | FeedItem video rest =>
      full <- limit_reached ;;
      if (full : bool) then ret tt
      else
        (completed <- trending_item video ;;
         (if (completed : bool) then count_video else ret tt) ;;
         trending_loop rest)
  end.

(** Lines 48-130: the two tiers. *)
Definition collect_videos : St locals unit :=
  try_except
    (let hashtag_query := str_lower (replace " " "" query) in
     reset_count ;;
     hashtag_loop (hashtag_videos E hashtag_query max_results))
    (fun hashtag_error =>
       try_except
         (reset_count ;;
          trending_loop (trending_videos E max_results))
         (fun trending_error => ret tt)).

Definition of_error {S} (e : option exn) : St S unit :=
  fun s => match e with
           | None => (Return tt, s)
           | Some e => (Raise e, s)
           end.

(** Lines 37-130: the [async with] block. *)
Definition with_api : St locals unit :=
  of_error (api_enter E) ;;
  try_finally
    (match ms_token E with
     | Some token =>
         if truthy (PyStr token) then of_error (create_sessions E token) else ret tt
     | None => ret tt
     end ;;
     clear_videos ;;
     collect_videos)
    (of_error (api_exit E)).

Definition found (videos : list pyval) : SearchResult := {|
  success := true;
  videos := videos;
  total_found := Z.of_nat (length videos);
  message := "Найдено " +:+ pretty (Z.of_nat (length videos))
             +:+ " TikTok видео по запросу '" +:+ query +:+ "'"
|}.

Definition not_found : SearchResult := {|
  success := false;
  videos := [];
  total_found := 0;
  message := "По запросу '" +:+ query
             +:+ "' TikTok видео не найдены. Попробуйте: 1) Добавить переменную ms_token из браузера, 2) Использовать более популярные ключевые слова."
|}.

Definition search_error (e : exn) : SearchResult := {|
  success := false;
  videos := [];
  total_found := 0;
  message := "Ошибка поиска TikTok: " +:+ str_exn e
             +:+ ". Совет: получите ms_token из браузера для лучших результатов."
|}.

(** Lines 132-147: [if videos: ... else: ...]. *)
Definition search_result : St locals SearchResult :=
  fun l => (Return (match videos_var l with
                    | [] => not_found
                    | _ => found (videos_var l)
                    end), l).

Definition search_tiktok_videos : outcome SearchResult :=
  fst (try_except
         (with_api ;; search_result)
         (fun e => ret (search_error e))
         (Locals [] 0)).

End Search.

(** *** The built-ins on ASCII text *)

Definition ascii_lower (c : ascii) : ascii :=
  let n := nat_of_ascii c in
  if (65 <=? n)%nat && (n <=? 90)%nat then ascii_of_nat (n + 32) else c.

Fixpoint lower (s : string) : string :=
  match s with
  | EmptyString => EmptyString
  | String c s' => String (ascii_lower c) (lower s')
  end.

(** The ASCII characters [str.isspace] accepts. *)
Definition is_space (c : ascii) : bool :=
  let n := nat_of_ascii c in
  ((9 <=? n)%nat && (n <=? 13)%nat) || ((28 <=? n)%nat && (n <=? 32)%nat).

Fixpoint split_from (word : string) (s : string) : list string :=
  match s with
  | EmptyString => if String.eqb word "" then [] else [word]
  | String c s' =>
      if is_space c
      then (if String.eqb word "" then split_from "" s' else word :: split_from "" s')
      else split_from (word +:+ String c EmptyString) s'
  end.

Definition split (s : string) : list string := split_from "" s.

(** [str(v)] of the scalars whose text needs no table. *)
Definition str_scalar (v : pyval) : string :=
  match v with
  | PyNone => "None"
  | PyBool b => if b then "True" else "False"
  | PyInt z => pretty z
  | PyStr s => s
  | PyFloat _ => "<float>"
  | PyList _ => "<list>"
  | PyDict _ => "<dict>"
  end.

(** On ASCII strings [lower] and [split] are Python's; [str_scalar] is
    Python's [str] on [None], booleans, integers and strings, the values the
    examples below hold. *)
Definition ascii_ops : StrOps := {|
  str_lower := lower;
  str_split := split;
  py_str := str_scalar
|}.

End TikTokSearch.

(** ** The pipeline in closed form *)

Module AudioSpec.
Import Py AudioProcessor.
Local Open Scope py_scope.

(** The try suite of [process_video] once the fetch returned [audio_path]:
    transcribe, estimate the cost. *)
Definition after_fetch (self : Self) (audio_path : string) : St world dict :=
  transcription_result <- self_transcribe_audio self audio_path ;;
  of_outcome (attach_estimated_cost transcription_result).

(** The whole try suite, without its local. *)
Definition pipeline (self : Self) (video_url : string) : St world dict :=
  audio_path <- self_extract_audio_from_video self video_url None ;;
  after_fetch self audio_path.

(** What the handler of [process_video] makes of the try suite's outcome. *)
Definition reported (o : outcome dict) : dict :=
  match o with
  | Return r => r
  | Raise e => failure ("Ошибка обработки видео: " +:+ str_exn e)
  end.

(** The world after the finally suite, entered in [w] with the local
    [audio_path]. *)
Definition cleaned (E : Env) (cleanup : bool) (audio_path : option string) (w : world)
  : world :=
  match audio_path with
  | Some p =>
      if cleanup && negb (String.eqb p "")
      then match stat (files w) p, unlink_error E p with
           | Some _, None => World (delete p (files w)) (calls w)
           | _, _ => w
           end
      else w
  | None => w
  end.

(** The calls made between two worlds. *)
Definition new_calls (w w' : world) : list call :=
  drop (length (calls w)) (calls w').

(** [d] is a float other than [0.0] and [-0.0]. *)
Definition nonzero (d : float) : Prop := PrimFloat.eqb d 0 = false.

End AudioSpec.

(** ** Example runs *)

Module AudioExamples.
Import Py AudioProcessor.

Definition tmp : string := "/tmp/tmpa.mp3".

(** FFmpeg exits with [rc] and the diagnostic [err], writing 2000 bytes when
    [rc] is 0; yt-dlp writes 1000 bytes; the service reports [dur];
    [os.unlink] fails with [unlink] if given. *)
Definition env (rc : Z) (err : string) (dur : option float) (unlink : option exn) : Env := {|
  tempfile_name := fun _ => Return tmp;
  ytdlp_error := fun _ _ => None;
  ytdlp_files := fun _ _ fs => <[tmp := Off 1000 eq_refl]> fs;
  run_process := fun _ _ => Return {| returncode := rc; stdout := ""; stderr := err |};
  run_files := fun _ fs => if rc =? 0 then <[tmp := Off 2000 eq_refl]> fs else fs;
  transcriptions_create := fun _ =>
    Return {| text := "hello"; language := "en"; duration := dur |};
  unlink_error := fun _ => unlink
|}.

Definition ok : Env := env 0 "" (Some 600%float) None.
Definition unlink_fails : Env :=
  env 0 "" (Some 600%float) (Some (OtherError "PermissionError" "[Errno 13] Permission denied")).
Definition ffmpeg_fails : Env := env 1 "video.mp4: No such file or directory" None None.
Definition silent : Env := env 0 "" (Some 0%float) None.

(** FFmpeg does not finish within the timeout. *)
Definition ffmpeg_times_out : Env := {|
  tempfile_name := fun _ => Return tmp;
  ytdlp_error := fun _ _ => None;
  ytdlp_files := fun _ _ fs => fs;
  run_process := fun _ timeout =>
    Raise (TimeoutExpired ("Command 'ffmpeg' timed out after " +:+ pretty timeout
                           +:+ " seconds"));
  run_files := fun _ fs => fs;
  transcriptions_create := fun _ => Raise (OtherError "APIConnectionError" "Connection error.");
  unlink_error := fun _ => None
|}.

(** The stubs of the end-to-end test: a transcript of 120 seconds. *)
Definition two_minutes : Env := env 0 "" (Some 120%float) None.

Definition empty_world : world := World ∅ [].

(** A world with one file of 30 000 000 bytes. *)
Definition big_file_world : world :=
  World (<["big.mp3" := Off 30000000 eq_refl]> ∅) [].

End AudioExamples.

(** ** The search in closed form *)

Module SearchSpec.
Import Py TikTokSearch.

(** The videos a feed yields before it ends or raises. *)
Fixpoint feed_items (f : feed) : list Video :=
  match f with
  | FeedItem video rest => video :: feed_items rest
  | _ => []
  end.

(** The session step of lines 40-44: its error, if any. *)
Definition session_error (E : Env) : option exn :=
  match ms_token E with
  | Some token => if truthy (PyStr token) then create_sessions E token else None
  | None => None
  end.

(** *** The relevance test in the words of the specification *)

(** [needle] occurs in [s]. *)
Definition occurs_in (needle s : string) : Prop :=
  exists before after, s = before +:+ needle +:+ after.

(** The description of a video: the text under [desc] in its data, empty
    when the data has no such key, and none when the data is not a
    dictionary or holds something other than text there. *)
Definition description (video : Video) : option string :=
  match as_dict video with
  | PyDict kvs =>
      match assoc "desc" kvs with
      | Some (PyStr s) => Some s
      | Some _ => None
      | None => Some ""
      end
  | _ => None
  end.

Section Verdicts.
Context {ops : StrOps}.
Variable query : string.

(** Some whitespace-split token of the query appears in the description of
    the video, as a substring and without regard to case. *)
Definition mentions (video : Video) : Prop :=
  exists desc token,
    description video = Some desc /\
    In token (str_split query) /\
    occurs_in (str_lower token) (str_lower desc).

(** What the trending loop does with one video: the handler ran
    ([Skipped]), the description holds no token ([Passed]), or the record
    was appended ([Kept]). *)
Inductive verdict : Type :=
| Skipped
| Passed
| Kept (record : pyval).

Definition trending_verdict (video : Video) : verdict :=
  match lower_desc (as_dict video) with
  | Raise _ => Skipped
  | Return desc =>
      if relevant query desc
      then match video_data "Trending TikTok video" video (as_dict video) with
           | Return record => Kept record
           | Raise _ => Skipped
           end
      else Passed
  end.

(** The video was processed without error, and so counted. *)
Definition completes (video : Video) : bool :=
  match trending_verdict video with
  | Skipped => false
  | _ => true
  end.

Definition kept (video : Video) : option pyval :=
  match trending_verdict video with
  | Kept record => Some record
  | _ => None
  end.

(** The description of the video contains a token of the query. *)
Definition matches (video : Video) : bool :=
  match lower_desc (as_dict video) with
  | Return desc => relevant query desc
  | Raise _ => false
  end.

(** The records of the trending tier: of the first [max_results] videos
    processed without error, those whose description holds a token. *)
Definition trending_records (max_results : Z) (items : list Video) : list pyval :=
  omap kept (take (Z.to_nat max_results) (List.filter completes items)).

(** The record the hashtag tier appends for a video, if the mapping does
    not raise. *)
Definition hashtag_record (video : Video) : option pyval :=
  match video_data ("TikTok video about " +:+ query) video (as_dict video) with
  | Return record => Some record
  | Raise _ => None
  end.

(** The records of the hashtag tier: the first [max_results] videos that map
    without error. *)
Definition hashtag_records (max_results : Z) (items : list Video) : list pyval :=
  take (Z.to_nat max_results) (omap hashtag_record items).

End Verdicts.

End SearchSpec.

Module SearchExamples.
Import Py TikTokSearch.

Definition video (id user desc : string) : Video := {|
  video_id := id;
  author_username := Return (Some user);
  as_dict := PyDict [("desc", PyStr desc); ("createTime", PyInt 1700000000)]
|}.

Definition env (hashtag trending : feed) : Env := {|
  ms_token := None;
  api_enter := None;
  create_sessions := fun _ => None;
  hashtag_videos := fun _ _ => hashtag;
  trending_videos := fun _ => trending;
  api_exit := None
|}.

(** The hashtag feed yields one video, then its second page fails; the
    trending feed holds two videos about cats. *)
Definition second_page_fails : Env :=
  env (FeedItem (video "1" "alice" "a cat")
         (FeedRaise (OtherError "TimeoutError" "Timeout 30000ms exceeded")))
      (FeedItem (video "2" "bob" "Funny CAT")
         (FeedItem (video "3" "carol" "cat nap") FeedEnd)).

(** The hashtag call fails at once; of the three trending videos only the
    third is about cats. *)
Definition cat_comes_third : Env :=
  env (FeedRaise (OtherError "TimeoutError" "Timeout 30000ms exceeded"))
      (FeedItem (video "1" "alice" "dog")
         (FeedItem (video "2" "bob" "dog")
            (FeedItem (video "3" "carol" "my cat") FeedEnd))).

End SearchExamples.

(** ** The command lines *)

(** How a script ends: it runs to its end, [sys.exit(code)] is called, or an
    exception reaches the top. *)
Inductive exit : Type :=
| Finished
| SystemExit (code : Z)
| Uncaught (e : Py.exn).

(** [scripts/audio_processor.py], [main]. *)
Module AudioCli.
Import Py AudioProcessor.

(** A [print]: a line of text, or [json.dumps(result, ensure_ascii=False,
    indent=2)] of a result. *)
Inductive printed : Type :=
| Text (s : string)
| Json (result : dict).

(** A start of the script: [sys.argv], the error of [OpenAI(api_key=...)] in
    [AudioProcessor()] if any, the error of a [print] statement if any (a
    standard output that cannot encode the text, as [UnicodeEncodeError] on
    the Cyrillic messages, or that is closed), and the tools. *)
Record Cli : Type := {
  argv : list string;
  client_error : option exn;
  print_error : printed -> option exn;
  tools : Env
}.

Definition main (C : Cli) (w : world) : exit * list printed * world :=
  if (length (argv C) <? 2)%nat
  then
    match print_error C (Text "Usage: python audio_processor.py <video_url>") with
    | Some e => (Uncaught e, [], w)
    | None => (SystemExit 1, [Text "Usage: python audio_processor.py <video_url>"], w)
    end
  else
    let video_url := nth 1 (argv C) "" in
    match client_error C with
    | Some e => (Uncaught e, [], w)
    | None =>
        match process_video (tools C) (audio_processor (tools C)) video_url true w with
        | (Return result, w') =>
            match print_error C (Json result) with
            | Some e => (Uncaught e, [], w')
            | None => (Finished, [Json result], w')
            end
        | (Raise e, w') => (Uncaught e, [], w')
        end
    end.

End AudioCli.

(** [scripts/tiktok_search.py], [main]. *)
Module SearchCli.
Import Py TikTokSearch.

(** [int(s)] on a string: the number, or [ValueError]. *)
Class IntOps : Type := {
  py_int : string -> outcome Z
}.

Inductive printed : Type :=
| Text (s : string)
| Json (result : SearchResult).

Definition usage : list printed :=
  [Text "Usage: python tiktok_search.py <query> [max_results]";
   Text "Note: Set ms_token environment variable for better results";
   Text "Get ms_token: Go to tiktok.com -> F12 -> Application -> Cookies -> Copy msToken value"].

(** Standard output: what has been printed so far.  [print_error] is the
    error of a [print] statement, if any: a standard output that cannot
    encode the text, as [UnicodeEncodeError] on the Cyrillic messages, or
    that is closed. *)
Definition print (print_error : printed -> option exn) (p : printed)
  : St (list printed) unit :=
  fun out => match print_error p with
             | Some e => (Raise e, out)
             | None => (Return tt, (out ++ [p])%list)
             end.

Fixpoint print_all (print_error : printed -> option exn) (ps : list printed)
  : St (list printed) unit :=
  match ps with
  | [] => ret tt
  | p :: rest => bind (print print_error p) (fun _ => print_all print_error rest)
  end.

(** The end of the script after its prints: [code], unless one of them
    raised. *)
Definition finish (code : exit) (run : outcome unit * list printed) : exit * list printed :=
  match run with
  | (Return _, out) => (code, out)
  | (Raise e, out) => (Uncaught e, out)
  end.

Definition main {ops : StrOps} {ints : IntOps} (print_error : printed -> option exn)
    (argv : list string) (E : Env) : exit * list printed :=
  if (length argv <? 2)%nat
  then finish (SystemExit 1) (print_all print_error usage [])
  else
    let query := nth 1 argv "" in
    match (if (2 <? length argv)%nat then py_int (nth 2 argv "") else Return 5) with
    | Raise e => (Uncaught e, [])
    | Return max_results =>
        match search_tiktok_videos E query max_results with
        | Return result => finish Finished (print print_error (Json result) [])
        | Raise e => (Uncaught e, [])
        end
    end.

(** [int] on ASCII text: blanks around, a sign, decimal digits with single
    underscores between them. *)
Definition is_digit (c : ascii) : bool :=
  let n := nat_of_ascii c in (48 <=? n)%nat && (n <=? 57)%nat.

Fixpoint digits_value (s : string) (acc : Z) (after_digit : bool) : option Z :=
  match s with
  | EmptyString => if after_digit then Some acc else None
  | String c s' =>
      if is_digit c
      then digits_value s' (10 * acc + (Z.of_nat (nat_of_ascii c) - 48)) true
      else if Ascii.eqb c "_" && after_digit then digits_value s' acc false
      else None
  end.

Fixpoint lstrip (s : string) : string :=
  match s with
  | String c s' => if is_space c then lstrip s' else s
  | EmptyString => EmptyString
  end.

Fixpoint rstrip (s : string) : string :=
  match s with
  | EmptyString => EmptyString
  | String c s' =>
      match rstrip s' with
      | EmptyString => if is_space c then EmptyString else String c EmptyString
      | r => String c r
      end
  end.

Definition signed_value (s : string) : option Z :=
  match s with
  | String "-" s' => Z.opp <$> digits_value s' 0 false
  | String "+" s' => digits_value s' 0 false
  | _ => digits_value s 0 false
  end.

(** On ASCII strings this is Python's [int]. *)
Definition ascii_int : IntOps := {|
  py_int := fun s =>
    match signed_value (rstrip (lstrip s)) with
    | Some z => Return z
    | None => Raise (OtherError "ValueError"
                       ("invalid literal for int() with base 10: " +:+ repr_str s))
    end
|}.

End SearchCli.

(** ** Further notions for the statements *)

Module MoreSpec.
Import Py.

(** [transcribe_audio] sends the file at [path]: it exists and is within
    the limit. *)
Definition service_called (w : AudioProcessor.world) (path : string) : bool :=
  match AudioProcessor.stat (AudioProcessor.files w) path with
  | Some size => negb (25 * 1024 * 1024 <? size)
  | None => false
  end.


(** A string without its space characters. *)
Fixpoint without_spaces (s : string) : string :=
  match s with
  | EmptyString => EmptyString
  | String c s' =>
      if Ascii.eqb c " " then without_spaces s' else String c (without_spaces s')
  end.


(** The keys of a video record, in order. *)
Definition record_keys : list string :=
  ["video_id"; "platform"; "title"; "description"; "url"; "thumbnail_url"; "views";
   "likes"; "comments"; "duration"; "published_at"; "author"; "hashtags"; "music"].

Definition keys_of (v : pyval) : list string :=
  match v with
  | PyDict d => map fst d
  | _ => []
  end.


End MoreSpec.

Module MoreExamples.
Import Py AudioProcessor.

(** yt-dlp fails: the video is not available. *)
Definition ytdlp_fails : Env := {|
  tempfile_name := fun _ => Return AudioExamples.tmp;
  ytdlp_error := fun _ _ => Some (OtherError "DownloadError" "ERROR: Video unavailable");
  ytdlp_files := fun _ _ fs => fs;
  run_process := fun _ _ => Return {| returncode := 0; stdout := ""; stderr := "" |};
  run_files := fun _ fs => fs;
  transcriptions_create := fun _ =>
    Return {| text := "hello"; language := "en"; duration := None |};
  unlink_error := fun _ => None
|}.

(** A stand-in for the object whose transcription reports its duration as
    text. *)
Definition text_duration : Self := {|
  self_extract_audio_from_video := fun _ _ => ret "audio.mp3";
  self_transcribe_audio := fun _ =>
    ret (<["duration" := PyStr "12.5"]>
           (transcribed {| text := "hello"; language := "en"; duration := None |}))
|}.

(** A command line with one URL, on a standard output that takes
    everything. *)
Definition one_url : AudioCli.Cli := {|
  AudioCli.argv := ["audio_processor.py"; "/home/me/video.mp4"];
  AudioCli.client_error := None;
  AudioCli.print_error := fun _ => None;
  AudioCli.tools := AudioExamples.ffmpeg_fails
|}.

(** The same start on a standard output that takes ASCII text only: it
    cannot encode a JSON document written with [ensure_ascii=False] whose
    message is Cyrillic. *)
Definition ascii_stdout (p : AudioCli.printed) : option exn :=
  match p with
  | AudioCli.Text _ => None
  | AudioCli.Json _ =>
      Some (OtherError "UnicodeEncodeError"
              "'ascii' codec can't encode characters in position 69-74: ordinal not in range(128)")
  end.

Definition one_url_ascii : AudioCli.Cli := {|
  AudioCli.argv := ["audio_processor.py"; "/home/me/video.mp4"];
  AudioCli.client_error := None;
  AudioCli.print_error := ascii_stdout;
  AudioCli.tools := AudioExamples.ffmpeg_fails
|}.

End MoreExamples.

Module MoreSearchExamples.
Import Py TikTokSearch.

(** A video with no data beyond its id and author. *)
Definition bare : Video := {|
  video_id := "7";
  author_username := Return (Some "alice");
  as_dict := PyDict []
|}.

(** A video with no author object: reading the username raises. *)
Definition orphan : Video := {|
  video_id := "8";
  author_username := Raise (attribute_error PyNone "username");
  as_dict := PyDict [("desc", PyStr "a cat")]
|}.

(** A video whose author has no username. *)
Definition nameless : Video := {|
  video_id := "9";
  author_username := Return None;
  as_dict := PyDict [("desc", PyStr "a cat")]
|}.

(** The hashtag feed yields three videos, the second without an author, and
    ends. *)
Definition hashtag_ends : Env :=
  SearchExamples.env
    (FeedItem (SearchExamples.video "1" "alice" "a cat")
       (FeedItem orphan (FeedItem (SearchExamples.video "3" "carol" "cat nap") FeedEnd)))
    (FeedItem (SearchExamples.video "9" "dave" "trending cat") FeedEnd).

End MoreSearchExamples.

(** * Theorems *)

(** ** Strings *)

Section Strings.
Import Py SearchSpec.

Lemma append_cons c (a b : string) : String c a +:+ b = String c (a +:+ b).
Proof. reflexivity. Qed.

Lemma contains_step needle c s :
  contains needle (String c s) = String.prefix needle (String c s) || contains needle s.
Proof. reflexivity. Qed.

Lemma prefix_cons a l b s :
  String.prefix (String a l) (String b s)
  = if ascii_dec a b then String.prefix l s else false.
Proof. reflexivity. Qed.

(** [s.startswith(needle)] holds exactly when [s] is [needle] followed by
    something. *)
Lemma prefix_occurs needle : forall s,
  String.prefix needle s = true <-> exists after, s = needle +:+ after.
Proof.
  induction needle as [|a needle IH]; intros s.
  - split; [intros _; exists s; reflexivity|intros _; destruct s; reflexivity].
  - destruct s as [|b s].
    + split; [discriminate|].
      intros [after H]. rewrite append_cons in H. discriminate H.
    + rewrite prefix_cons. destruct (ascii_dec a b) as [<-|Hne].
      * rewrite IH. split; intros [after H]; exists after.
        -- rewrite append_cons, H. reflexivity.
        -- rewrite append_cons in H. injection H as H. exact H.
      * split; [discriminate|].
        intros [after H]. rewrite append_cons in H. injection H as H _. congruence.
Qed.

(** [needle in s] holds exactly when [needle] occurs in [s]. *)
Lemma contains_occurs needle s : contains needle s = true <-> occurs_in needle s.
Proof.
  split.
  - induction s as [|c s IH].
    + change (contains needle "") with (String.prefix needle "" || false).
      intros H. apply orb_true_iff in H as [H|H]; [|discriminate H].
      apply prefix_occurs in H as [after H]. exists "", after. exact H.
    + rewrite contains_step. intros H. apply orb_true_iff in H as [H|H].
      * apply prefix_occurs in H as [after H]. exists "", after. exact H.
      * destruct (IH H) as (before & after & ->).
        exists (String c before), after. rewrite append_cons. reflexivity.
  - intros (before & after & ->). induction before as [|c before IH].
    + change ("" +:+ needle +:+ after) with (needle +:+ after).
      assert (H : String.prefix needle (needle +:+ after) = true)
        by (apply prefix_occurs; exists after; reflexivity).
      destruct (needle +:+ after) as [|c x].
      * change (contains needle "") with (String.prefix needle "" || false).
        rewrite H. reflexivity.
      * rewrite contains_step, H. reflexivity.
    + rewrite append_cons, contains_step, IH. apply orb_true_r.
Qed.

End Strings.

(** ** The audio pipeline *)

Section AudioPipeline.
Import Py AudioProcessor AudioSpec.
Local Open Scope py_scope.

Lemma cleanup_files_run E cleanup audio_path w :
  cleanup_files E cleanup (audio_path, w)
  = (Return tt, (audio_path, cleaned E cleanup audio_path w)).
Proof.
  unfold cleanup_files, cleaned, bind, get_local, lift, os_path_exists, try_except,
    os_unlink, ret.
  destruct audio_path as [p|]; simpl; [|reflexivity].
  destruct cleanup; simpl; [|reflexivity].
  destruct (String.eqb p ""); simpl; [reflexivity|].
  destruct (stat (files w) p); simpl; [|reflexivity].
  destruct (unlink_error E p); reflexivity.
Qed.

(** [process_video] in one equation: the handler's report of the try suite,
    in the world the finally suite leaves. *)
Lemma process_video_unfold E self video_url cleanup w :
  process_video E self video_url cleanup w =
  match self_extract_audio_from_video self video_url None w with
  | (Raise e, w1) => (Return (reported (Raise e)), w1)
  | (Return p, w1) =>
      match after_fetch self p w1 with
      | (o, w2) => (Return (reported o), cleaned E cleanup (Some p) w2)
      end
  end.
Proof.
  unfold process_video, try_finally, try_except, bind, lift, set_local, after_fetch,
    of_outcome, ret, bind.
  destruct (self_extract_audio_from_video self video_url None w) as [[p|e] w1]; simpl.
  - destruct (self_transcribe_audio self p w1) as [[tr|e] w2]; simpl.
    + destruct (attach_estimated_cost tr) as [r|e]; simpl;
        rewrite cleanup_files_run; reflexivity.
    + rewrite cleanup_files_run; reflexivity.
  - reflexivity.
Qed.

Lemma stat_delete fs p : stat (delete p fs) p = None.
Proof.
  unfold stat. destruct (String.eqb p ""); [reflexivity|].
  rewrite lookup_delete_eq. reflexivity.
Qed.

Lemma pipeline_unfold self video_url w :
  pipeline self video_url w =
  match self_extract_audio_from_video self video_url None w with
  | (Raise e, w1) => (Raise e, w1)
  | (Return p, w1) => after_fetch self p w1
  end.
Proof.
  unfold pipeline, bind.
  destruct (self_extract_audio_from_video self video_url None w) as [[p|e] w1]; reflexivity.
Qed.

(** C6.  [process_video] always returns a dictionary: the one the pipeline
    produced or, for any exception raised by the fetch step or later in the
    try suite, the failure dictionary (success false, empty transcript,
    language en) whose message quotes the exception. *)
Theorem process_video_never_raises E self video_url cleanup w :
  exists r w',
    process_video E self video_url cleanup w = (Return r, w') /\
    (forall e w1,
        self_extract_audio_from_video self video_url None w = (Raise e, w1) ->
        r = failure ("Ошибка обработки видео: " +:+ str_exn e)) /\
    (forall e, fst (pipeline self video_url w) = Raise e ->
               r = failure ("Ошибка обработки видео: " +:+ str_exn e)
               /\ r !! "success" = Some (PyBool false)
               /\ r !! "message" = Some (PyStr ("Ошибка обработки видео: " +:+ str_exn e))) /\
    (forall r0, fst (pipeline self video_url w) = Return r0 -> r = r0).
Proof.
  rewrite process_video_unfold, pipeline_unfold.
  destruct (self_extract_audio_from_video self video_url None w) as [[p|e] w1].
  - destruct (after_fetch self p w1) as [o w2].
    exists (reported o), (cleaned E cleanup (Some p) w2).
    split; [reflexivity|]. split; [intros e' w1' H; discriminate H|].
    split; simpl; intros x Hx; subst o; simpl; auto.
  - exists (reported (Raise e)), w1.
    split; [reflexivity|]. split; [intros e' w1' H; inversion H; reflexivity|].
    split; simpl; intros x Hx; inversion Hx; subst; auto.
Qed.

(** C1, as amended.  Once the fetch step has returned a path, then on every
    way out of the rest of the pipeline (a result or an exception): with
    cleanup the file at that path is gone after the run unless [os.unlink]
    itself fails, no other file is touched and no call is added; without
    cleanup the world is left as the pipeline left it. *)
Theorem process_video_cleanup E self video_url cleanup w p w1 o w2 :
  self_extract_audio_from_video self video_url None w = (Return p, w1) ->
  after_fetch self p w1 = (o, w2) ->
  exists w',
    process_video E self video_url cleanup w = (Return (reported o), w') /\
    (cleanup = true -> unlink_error E p = None ->
       stat (files w') p = None /\
       calls w' = calls w2 /\
       forall q, q <> p -> files w' !! q = files w2 !! q) /\
    (cleanup = false -> w' = w2).
Proof.
  intros Hfetch Hrest. rewrite process_video_unfold, Hfetch, Hrest.
  exists (cleaned E cleanup (Some p) w2). split; [reflexivity|]. split.
  - intros -> Hunlink. unfold cleaned. simpl.
    destruct (String.eqb p "") eqn:Hp; simpl.
    + apply String.eqb_eq in Hp. subst p. auto.
    + destruct (stat (files w2) p) eqn:Hstat; rewrite ?Hunlink; simpl.
      * split; [apply stat_delete|]. split; [reflexivity|].
        intros q Hq. apply lookup_delete_ne. congruence.
      * auto.
  - intros ->. reflexivity.
Qed.

(** A run of a local video with cleanup on. *)
Lemma process_video_cleanup_witness :
  exists w',
    process_video AudioExamples.ok (audio_processor AudioExamples.ok)
      "/home/me/video.mp4" true AudioExamples.empty_world
    = (Return (reported (fst (after_fetch (audio_processor AudioExamples.ok)
                                AudioExamples.tmp
                                (snd (extract_audio_from_video AudioExamples.ok
                                        "/home/me/video.mp4" None
                                        AudioExamples.empty_world))))), w') /\
    (true = true -> unlink_error AudioExamples.ok AudioExamples.tmp = None ->
       stat (files w') AudioExamples.tmp = None /\
       calls w' = calls (snd (after_fetch (audio_processor AudioExamples.ok)
                                AudioExamples.tmp
                                (snd (extract_audio_from_video AudioExamples.ok
                                        "/home/me/video.mp4" None
                                        AudioExamples.empty_world)))) /\
       forall q, q <> AudioExamples.tmp ->
         files w' !! q
         = files (snd (after_fetch (audio_processor AudioExamples.ok)
                         AudioExamples.tmp
                         (snd (extract_audio_from_video AudioExamples.ok
                                 "/home/me/video.mp4" None
                                 AudioExamples.empty_world)))) !! q) /\
    (true = false ->
       w' = snd (after_fetch (audio_processor AudioExamples.ok)
                   AudioExamples.tmp
                   (snd (extract_audio_from_video AudioExamples.ok
                           "/home/me/video.mp4" None
                           AudioExamples.empty_world)))).
Proof.
  apply (process_video_cleanup AudioExamples.ok (audio_processor AudioExamples.ok)
           "/home/me/video.mp4" true AudioExamples.empty_world AudioExamples.tmp
           (snd (extract_audio_from_video AudioExamples.ok "/home/me/video.mp4" None
                   AudioExamples.empty_world))).
  - vm_compute. reflexivity.
  - apply surjective_pairing.
Defined.

(** C1 as stated fails twice over.  With cleanup on and a transcription that
    succeeds, a failing [os.unlink] leaves the 2000-byte asset in place; and
    when FFmpeg fails, the temporary file the fetch step created stays,
    because [audio_path] was never bound. *)
Lemma cleanup_leaves_asset :
  (let run := process_video AudioExamples.unlink_fails
                (audio_processor AudioExamples.unlink_fails)
                "/home/me/video.mp4" true AudioExamples.empty_world in
   fst run = Return (<["estimated_cost" := PyFloat 0.06]>
                       (transcribed {| text := "hello"; language := "en";
                                       duration := Some 600%float |})) /\
   stat (files (snd run)) AudioExamples.tmp = Some 2000) /\
  (let run := process_video AudioExamples.ffmpeg_fails
                (audio_processor AudioExamples.ffmpeg_fails)
                "/home/me/video.mp4" true AudioExamples.empty_world in
   fst run = Return (failure ("Ошибка обработки видео: FFmpeg failed: "
                              +:+ "video.mp4: No such file or directory")) /\
   stat (files (snd run)) AudioExamples.tmp = Some 0).
Proof. repeat split; vm_compute; reflexivity. Qed.

(** *** The size limit *)

Lemma stat_bounded fs path size : stat fs path = Some size -> 0 <= size < 2 ^ 63.
Proof.
  unfold stat. destruct (String.eqb path ""); [discriminate|].
  destruct (fs !! path) as [[n Hn]|]; simpl; [|discriminate].
  intros [= <-]. apply andb_true_iff in Hn as [H0 H1].
  apply Z.leb_le in H0. apply Z.ltb_lt in H1. lia.
Qed.

(** No file is large enough for [file_size/1024] to overflow. *)
Lemma int_truediv_file_size a :
  0 < a < 2 ^ 63 -> exists x, int_truediv a 1024 = Return x.
Proof.
  intros [Hpos Hlt]. unfold int_truediv.
  destruct (a =? 0) eqn:E0; [apply Z.eqb_eq in E0; lia|].
  assert (Hlog : Z.log2 (Z.abs a) < 63)
    by (rewrite Z.abs_eq by lia; apply Z.log2_lt_pow2; lia).
  change (Z.log2 1024) with 10.
  set (n := Z.abs a) in *.
  set (e0 := Z.log2 n - 10 - 53).
  set (e := if 2 ^ 53 * snd (scaled n 1024 e0) <=? fst (scaled n 1024 e0)
            then e0 + 1 else e0).
  assert (He : (e <? 971) = true).
  { apply Z.ltb_lt. subst e e0.
    destruct (2 ^ 53 * snd (scaled n 1024 (Z.log2 n - 10 - 53))
              <=? fst (scaled n 1024 (Z.log2 n - 10 - 53))); lia. }
  rewrite He. simpl. eauto.
Qed.

Lemma size_in_mb_returns size :
  25 * 1024 * 1024 < size < 2 ^ 63 -> exists mb, size_in_mb size = Return mb.
Proof.
  intros H. unfold size_in_mb.
  destruct (int_truediv_file_size size) as [x ->]; [lia|]. eauto.
Qed.

(** C2.  For a file of more than 25 * 1024 * 1024 bytes [transcribe_audio]
    returns a dictionary with exactly four keys: success false, transcript
    empty, language en, and a message that gives the size in megabytes.  The
    world is the one it started in: no call was made, so the service was not
    contacted. *)
Theorem transcribe_audio_too_large E audio_path w file_size :
  stat (files w) audio_path = Some file_size ->
  25 * 1024 * 1024 < file_size ->
  exists mb r,
    size_in_mb file_size = Return mb /\
    transcribe_audio E audio_path w = (Return r, w) /\
    r !! "success" = Some (PyBool false) /\
    r !! "transcript" = Some (PyStr "") /\
    r !! "language" = Some (PyStr "en") /\
    r !! "message"
    = Some (PyStr ("Файл слишком большой: " +:+ mb +:+ "MB (максимум 25MB)")) /\
    (forall key,
        key <> "success" -> key <> "transcript" -> key <> "language" ->
        key <> "message" -> r !! key = None) /\
    new_calls w (snd (transcribe_audio E audio_path w)) = [].
Proof.
  intros Hstat Hbig.
  destruct (size_in_mb_returns file_size) as [mb Hmb].
  { pose proof (stat_bounded _ _ _ Hstat). lia. }
  exists mb, (failure ("Файл слишком большой: " +:+ mb +:+ "MB (максимум 25MB)")).
  split; [exact Hmb|].
  assert (Hrun : transcribe_audio E audio_path w
                 = (Return (failure ("Файл слишком большой: " +:+ mb
                                     +:+ "MB (максимум 25MB)")), w)).
  { unfold transcribe_audio, try_except, bind, os_path_getsize, of_outcome, ret.
    rewrite Hstat.
    replace (25 * 1024 * 1024 <? file_size) with true
      by (symmetry; apply Z.ltb_lt; exact Hbig).
    rewrite Hmb. reflexivity. }
  split; [exact Hrun|]. unfold failure.
  split; [apply lookup_insert_eq|].
  split; [rewrite lookup_insert_ne by discriminate; apply lookup_insert_eq|].
  split; [rewrite !lookup_insert_ne by discriminate; apply lookup_insert_eq|].
  split; [rewrite !lookup_insert_ne by discriminate; apply lookup_insert_eq|].
  split.
  - intros key H1 H2 H3 H4. rewrite !lookup_insert_ne by congruence. apply lookup_empty.
  - rewrite Hrun. unfold new_calls. simpl. apply drop_all.
Qed.

(** A file of 30 000 000 bytes. *)
Lemma transcribe_audio_too_large_witness :
  exists mb r,
    size_in_mb 30000000 = Return mb /\
    transcribe_audio AudioExamples.ok "big.mp3" AudioExamples.big_file_world
    = (Return r, AudioExamples.big_file_world) /\
    r !! "success" = Some (PyBool false) /\
    r !! "transcript" = Some (PyStr "") /\
    r !! "language" = Some (PyStr "en") /\
    r !! "message"
    = Some (PyStr ("Файл слишком большой: " +:+ mb +:+ "MB (максимум 25MB)")) /\
    (forall key,
        key <> "success" -> key <> "transcript" -> key <> "language" ->
        key <> "message" -> r !! key = None) /\
    new_calls AudioExamples.big_file_world
      (snd (transcribe_audio AudioExamples.ok "big.mp3" AudioExamples.big_file_world)) = [].
Proof.
  apply (transcribe_audio_too_large AudioExamples.ok "big.mp3"
           AudioExamples.big_file_world 30000000).
  - vm_compute. reflexivity.
  - lia.
Defined.

(** The size in the message of that run: 30 000 000 bytes are 28.6 MB. *)
Example too_large_message :
  size_in_mb 30000000 = Return "28.6" /\
  fst (transcribe_audio AudioExamples.ok "big.mp3" AudioExamples.big_file_world)
  = Return (<["success" := PyBool false]> (<["transcript" := PyStr ""]>
      (<["language" := PyStr "en"]>
         (<["message" := PyStr "Файл слишком большой: 28.6MB (максимум 25MB)"]> ∅)))).
Proof. split; vm_compute; reflexivity. Qed.

(** Below the limit the service is called: the call log is not vacuous. *)
Lemma transcribe_audio_calls_service E audio_path w file_size :
  stat (files w) audio_path = Some file_size ->
  file_size <= 25 * 1024 * 1024 ->
  new_calls w (snd (transcribe_audio E audio_path w)) = [Whisper audio_path].
Proof.
  intros Hstat Hsmall.
  unfold transcribe_audio, try_except, bind, os_path_getsize, whisper_transcribe, bind,
    open_rb, ret.
  rewrite Hstat.
  replace (25 * 1024 * 1024 <? file_size) with false
    by (symmetry; apply Z.ltb_ge; exact Hsmall).
  rewrite Hstat. unfold new_calls.
  destruct (transcriptions_create E audio_path); simpl; apply drop_app_length.
Qed.

(** *** The cost estimate *)

Lemma dict_get_failure message key :
  key <> "success" -> key <> "transcript" -> key <> "language" -> key <> "message" ->
  failure message !! key = None.
Proof.
  intros H1 H2 H3 H4. unfold failure.
  rewrite !lookup_insert_ne by congruence. apply lookup_empty.
Qed.

Lemma attach_estimated_cost_failure message :
  attach_estimated_cost (failure message) = Return (failure message).
Proof.
  unfold attach_estimated_cost, dict_get.
  rewrite dict_get_failure by discriminate. reflexivity.
Qed.

Lemma transcribed_duration t :
  transcribed t !! "duration"
  = Some (match duration t with Some d => PyFloat d | None => PyNone end).
Proof. reflexivity. Qed.

Lemma transcribed_estimated_cost t : transcribed t !! "estimated_cost" = None.
Proof. reflexivity. Qed.

(** What [transcribe_audio] can return: a failure dictionary or the
    dictionary of a transcript; it never raises. *)
Lemma transcribe_audio_cases E audio_path w :
  exists w',
    (exists message, transcribe_audio E audio_path w = (Return (failure message), w')) \/
    (exists t, transcribe_audio E audio_path w = (Return (transcribed t), w')).
Proof.
  unfold transcribe_audio, try_except, bind, os_path_getsize, whisper_transcribe, bind,
    open_rb, of_outcome, ret.
  destruct (stat (files w) audio_path) as [size|] eqn:Hstat;
    [|eexists; left; eexists; reflexivity].
  destruct (25 * 1024 * 1024 <? size).
  - destruct (size_in_mb size); eexists; left; eexists; reflexivity.
  - rewrite Hstat. destruct (transcriptions_create E audio_path) as [t|e]; eexists.
    + right. exists t. reflexivity.
    + left. eexists. reflexivity.
Qed.

Lemma attach_estimated_cost_float tr d :
  tr !! "duration" = Some (PyFloat d) ->
  attach_estimated_cost tr
  = Return (if PrimFloat.eqb d 0 then tr
            else <["estimated_cost" := PyFloat (d / 60 * 0.006)%float]> tr).
Proof.
  intros H. unfold attach_estimated_cost, dict_get. rewrite H. simpl.
  destruct (PrimFloat.eqb d 0); reflexivity.
Qed.

(** C5, as amended.  When the fetch returned and the transcription result
    carries a duration [d] that is a float other than zero, the result of
    [process_video] is the transcription result with [estimated_cost] set to
    [d / 60 * 0.006]; for a duration of 600 seconds, float or integer, the
    estimate is the float 0.06. *)
Theorem estimated_cost_attached E self video_url cleanup w p w1 tr w2 d :
  self_extract_audio_from_video self video_url None w = (Return p, w1) ->
  self_transcribe_audio self p w1 = (Return tr, w2) ->
  tr !! "duration" = Some (PyFloat d) ->
  nonzero d ->
  fst (process_video E self video_url cleanup w)
  = Return (<["estimated_cost" := PyFloat (d / 60 * 0.006)%float]> tr) /\
  cost_of (PyFloat 600) = Return 0.06%float /\
  cost_of (PyInt 600) = Return 0.06%float.
Proof.
  intros Hfetch Htr Hd Hnz. split; [|split; reflexivity].
  rewrite process_video_unfold, Hfetch.
  unfold after_fetch, bind, of_outcome. rewrite Htr.
  rewrite (attach_estimated_cost_float tr d Hd).
  unfold nonzero in Hnz. rewrite Hnz. reflexivity.
Qed.

(** A transcript of 600 seconds. *)
Lemma estimated_cost_attached_witness :
  fst (process_video AudioExamples.ok (audio_processor AudioExamples.ok)
         "https://youtu.be/abc123" true AudioExamples.empty_world)
  = Return (<["estimated_cost" := PyFloat (600 / 60 * 0.006)%float]>
              (transcribed {| text := "hello"; language := "en"; duration := Some 600%float |})) /\
  cost_of (PyFloat 600) = Return 0.06%float /\
  cost_of (PyInt 600) = Return 0.06%float.
Proof.
  apply (estimated_cost_attached AudioExamples.ok (audio_processor AudioExamples.ok)
           "https://youtu.be/abc123" true AudioExamples.empty_world AudioExamples.tmp
           (snd (extract_audio_from_video AudioExamples.ok "https://youtu.be/abc123" None
                   AudioExamples.empty_world))
           (transcribed {| text := "hello"; language := "en"; duration := Some 600%float |})
           (snd (transcribe_audio AudioExamples.ok AudioExamples.tmp
                   (snd (extract_audio_from_video AudioExamples.ok
                           "https://youtu.be/abc123" None AudioExamples.empty_world))))
           600%float).
  - vm_compute. reflexivity.
  - vm_compute. reflexivity.
  - reflexivity.
  - reflexivity.
Defined.

(** C5 as stated fails: a transcription that reports a duration of 0.0
    carries a duration, and the result has no [estimated_cost]. *)
Lemma zero_duration_has_no_cost :
  let tr := transcribed {| text := "hello"; language := "en"; duration := Some 0%float |} in
  fst (process_video AudioExamples.silent (audio_processor AudioExamples.silent)
         "/home/me/silence.mp4" true AudioExamples.empty_world) = Return tr /\
  tr !! "success" = Some (PyBool true) /\
  tr !! "duration" = Some (PyFloat 0) /\
  tr !! "estimated_cost" = None.
Proof. simpl. split; [vm_compute; reflexivity|]. repeat split. Qed.

(** C10.  The result of [process_video] has an [estimated_cost] exactly when
    the fetch returned and [transcribe_audio] returned a dictionary whose
    duration is a float other than zero; a result with success false has
    none. *)
Theorem estimated_cost_iff_duration E video_url cleanup w :
  exists r,
    fst (process_video E (audio_processor E) video_url cleanup w) = Return r /\
    (is_Some (r !! "estimated_cost") <->
       exists p w1 tr w2 d,
         extract_audio_from_video E video_url None w = (Return p, w1) /\
         transcribe_audio E p w1 = (Return tr, w2) /\
         tr !! "duration" = Some (PyFloat d) /\
         nonzero d) /\
    (r !! "success" = Some (PyBool false) -> r !! "estimated_cost" = None).
Proof.
  rewrite process_video_unfold. simpl.
  destruct (extract_audio_from_video E video_url None w) as [[p|e] w1] eqn:Hfetch.
  - unfold after_fetch, bind, of_outcome. simpl.
    destruct (transcribe_audio_cases E p w1) as [w2 [[m Hm]|[t Ht]]].
    + rewrite Hm, attach_estimated_cost_failure. simpl.
      exists (failure m). split; [reflexivity|]. split.
      * rewrite dict_get_failure by discriminate. split.
        -- intros [x Hx]. discriminate Hx.
        -- intros (p' & w1' & tr & w2' & d & Hp & Htr & Hd & _).
           injection Hp as <- <-. rewrite Hm in Htr. injection Htr as <- <-.
           rewrite dict_get_failure in Hd by discriminate. discriminate Hd.
      * intros _. apply dict_get_failure; discriminate.
    + rewrite Ht. destruct (duration t) as [d|] eqn:Hdur.
      * rewrite (attach_estimated_cost_float (transcribed t) d)
          by (rewrite transcribed_duration, Hdur; reflexivity).
        destruct (PrimFloat.eqb d 0) eqn:Hz; simpl; eexists; (split; [reflexivity|]).
        -- split; [split|].
           ++ rewrite transcribed_estimated_cost. intros [x Hx]. discriminate Hx.
           ++ intros (p' & w1' & tr & w2' & d' & Hp & Htr & Hd & Hnz).
              injection Hp as <- <-. rewrite Ht in Htr. injection Htr as <- <-.
              rewrite transcribed_duration, Hdur in Hd. injection Hd as <-.
              unfold nonzero in Hnz. congruence.
           ++ intros _. apply transcribed_estimated_cost.
        -- split; [split|].
           ++ intros _. exists p, w1, (transcribed t), w2, d.
              repeat split; try reflexivity; try assumption.
              rewrite transcribed_duration, Hdur. reflexivity.
           ++ intros _. rewrite lookup_insert_eq. eauto.
           ++ rewrite lookup_insert_ne by discriminate. intros H. discriminate H.
      * unfold attach_estimated_cost, dict_get.
        rewrite transcribed_duration, Hdur. simpl.
        eexists. split; [reflexivity|]. split; [split|].
        -- rewrite transcribed_estimated_cost. intros [x Hx]. discriminate Hx.
        -- intros (p' & w1' & tr & w2' & d' & Hp & Htr & Hd & Hnz).
           injection Hp as <- <-. rewrite Ht in Htr. injection Htr as <- <-.
           rewrite transcribed_duration, Hdur in Hd. discriminate Hd.
        -- intros _. apply transcribed_estimated_cost.
  - eexists. split; [reflexivity|]. split; [split|].
    + simpl. rewrite dict_get_failure by discriminate. intros [x Hx]. discriminate Hx.
    + intros (p' & w1' & tr & w2' & d' & Hp & _). discriminate Hp.
    + intros _. apply dict_get_failure; discriminate.
Qed.

(** *** The fetch step *)

Lemma output_file_run E output_path w :
  (exists path w1, output_file E output_path w = (Return path, w1) /\ calls w1 = calls w) \/
  (exists e, output_file E output_path w = (Raise e, w)).
Proof.
  unfold output_file, NamedTemporaryFile, ret.
  destruct output_path as [p|]; [left; eauto|].
  destruct (tempfile_name E (files w)) as [name|e]; [left|right]; eauto.
Qed.

Lemma new_calls_one w w' (c : call) :
  calls w' = (calls w ++ [c])%list -> new_calls w w' = [c].
Proof. intros H. unfold new_calls. rewrite H. apply drop_app_length. Qed.

Lemma new_calls_none w w' : calls w' = calls w -> new_calls w w' = [].
Proof. intros H. unfold new_calls. rewrite H. apply drop_all. Qed.

(** C8.  A reference the pattern classifies as a YouTube URL is handed to
    [download_youtube_audio], and the only call made is yt-dlp's; every other
    reference goes to FFmpeg, and the only call made is that process, under
    a timeout of 60.  (No call is made when the temporary file cannot be
    created.) *)
Theorem extract_audio_routes E video_url output_path w :
  (is_youtube_url video_url = true ->
     extract_audio_from_video E video_url output_path w
     = download_youtube_audio E video_url output_path w /\
     new_calls w (snd (extract_audio_from_video E video_url output_path w))
     = match fst (output_file E output_path w) with
       | Return path => [YtDlp video_url (replace ".mp3" ".%(ext)s" path)]
       | Raise _ => []
       end) /\
  (is_youtube_url video_url = false ->
     new_calls w (snd (extract_audio_from_video E video_url output_path w))
     = match fst (output_file E output_path w) with
       | Return path => [Subprocess (ffmpeg_cmd video_url path) 60]
       | Raise _ => []
       end).
Proof.
  split; intros Hurl; unfold extract_audio_from_video, try_except; rewrite Hurl.
  - unfold download_youtube_audio, try_except, bind, ydl_download, raise, ret.
    destruct (output_file_run E output_path w) as [(path & w1 & -> & Hc)|(e & ->)]; simpl.
    + destruct (ytdlp_error E video_url (replace ".mp3" ".%(ext)s" path)); simpl;
        (split; [reflexivity|]); apply new_calls_one; simpl; rewrite Hc; reflexivity.
    + split; [reflexivity|]. apply new_calls_none. reflexivity.
  - unfold bind, subprocess_run, raise, ret.
    destruct (output_file_run E output_path w) as [(path & w1 & -> & Hc)|(e & ->)]; simpl.
    + destruct (run_process E (ffmpeg_cmd video_url path) 60) as [result|e]; simpl.
      * destruct (returncode result =? 0); simpl;
          apply new_calls_one; simpl; rewrite Hc; reflexivity.
      * destruct e; simpl; apply new_calls_one; simpl; rewrite Hc; reflexivity.
    + destruct e; simpl; apply new_calls_none; reflexivity.
Qed.

(** C9.  Off the YouTube route, with the output file at [path], the fetch
    runs FFmpeg once under a timeout of 60 and its outcome is decided by that
    run: exit code 0 returns [path]; any other exit code raises
    [Exception("FFmpeg failed: " + stderr)]; [TimeoutExpired] raises
    [Exception("Audio extraction timeout")], a message no FFmpeg failure
    has; any other exception is raised unchanged.  A failure never returns a
    path. *)
Theorem generic_extraction_failures E video_url output_path w path w1 :
  is_youtube_url video_url = false ->
  output_file E output_path w = (Return path, w1) ->
  let cmd := ffmpeg_cmd video_url path in
  extract_audio_from_video E video_url output_path w
  = (match run_process E cmd 60 with
     | Return result =>
         if returncode result =? 0 then Return path
         else Raise (Exception ("FFmpeg failed: " +:+ stderr result))
     | Raise (TimeoutExpired _) => Raise (Exception "Audio extraction timeout")
     | Raise e => Raise e
     end,
     World (run_files E cmd (files w1)) (calls w1 ++ [Subprocess cmd 60])) /\
  (forall diagnostic,
      Exception "Audio extraction timeout" <> Exception ("FFmpeg failed: " +:+ diagnostic)) /\
  (forall result, run_process E cmd 60 = Return result -> returncode result <> 0 ->
      forall p, fst (extract_audio_from_video E video_url output_path w) <> Return p) /\
  (forall e, run_process E cmd 60 = Raise e ->
      forall p, fst (extract_audio_from_video E video_url output_path w) <> Return p).
Proof.
  intros Hurl Hfile cmd.
  assert (Hrun : extract_audio_from_video E video_url output_path w
    = (match run_process E cmd 60 with
       | Return result =>
           if returncode result =? 0 then Return path
           else Raise (Exception ("FFmpeg failed: " +:+ stderr result))
       | Raise (TimeoutExpired _) => Raise (Exception "Audio extraction timeout")
       | Raise e => Raise e
       end,
       World (run_files E cmd (files w1)) (calls w1 ++ [Subprocess cmd 60]))).
  { unfold extract_audio_from_video, try_except, bind, subprocess_run, raise, ret.
    rewrite Hurl, Hfile. fold cmd.
    destruct (run_process E cmd 60) as [result|e]; simpl.
    - destruct (returncode result =? 0); reflexivity.
    - destruct e; reflexivity. }
  split; [exact Hrun|]. split; [intros diagnostic H; discriminate H|]. split.
  - intros result Hres Hrc p. rewrite Hrun, Hres. simpl.
    destruct (returncode result =? 0) eqn:Hz; [apply Z.eqb_eq in Hz; contradiction|].
    discriminate.
  - intros e He p. rewrite Hrun, He. simpl. destruct e; discriminate.
Qed.

(** FFmpeg exits with code 1 on a local video. *)
Lemma generic_extraction_failures_witness :
  extract_audio_from_video AudioExamples.ffmpeg_fails "/home/me/video.mp4" None
    AudioExamples.empty_world
  = (match run_process AudioExamples.ffmpeg_fails
             (ffmpeg_cmd "/home/me/video.mp4" AudioExamples.tmp) 60 with
     | Return result =>
         if returncode result =? 0 then Return AudioExamples.tmp
         else Raise (Exception ("FFmpeg failed: " +:+ stderr result))
     | Raise (TimeoutExpired _) => Raise (Exception "Audio extraction timeout")
     | Raise e => Raise e
     end,
     World (run_files AudioExamples.ffmpeg_fails
              (ffmpeg_cmd "/home/me/video.mp4" AudioExamples.tmp)
              (files (snd (output_file AudioExamples.ffmpeg_fails None
                             AudioExamples.empty_world))))
       (calls (snd (output_file AudioExamples.ffmpeg_fails None AudioExamples.empty_world))
        ++ [Subprocess (ffmpeg_cmd "/home/me/video.mp4" AudioExamples.tmp) 60])) /\
  (forall diagnostic,
      Exception "Audio extraction timeout" <> Exception ("FFmpeg failed: " +:+ diagnostic)) /\
  (forall result,
      run_process AudioExamples.ffmpeg_fails
        (ffmpeg_cmd "/home/me/video.mp4" AudioExamples.tmp) 60 = Return result ->
      returncode result <> 0 ->
      forall p, fst (extract_audio_from_video AudioExamples.ffmpeg_fails
                       "/home/me/video.mp4" None AudioExamples.empty_world) <> Return p) /\
  (forall e,
      run_process AudioExamples.ffmpeg_fails
        (ffmpeg_cmd "/home/me/video.mp4" AudioExamples.tmp) 60 = Raise e ->
      forall p, fst (extract_audio_from_video AudioExamples.ffmpeg_fails
                       "/home/me/video.mp4" None AudioExamples.empty_world) <> Return p).
Proof.
  apply (generic_extraction_failures AudioExamples.ffmpeg_fails "/home/me/video.mp4" None
           AudioExamples.empty_world AudioExamples.tmp
           (snd (output_file AudioExamples.ffmpeg_fails None AudioExamples.empty_world))).
  - vm_compute. reflexivity.
  - vm_compute. reflexivity.
Defined.

(** The failures of the FFmpeg route on concrete runs. *)
Example ffmpeg_failure_run :
  fst (extract_audio_from_video AudioExamples.ffmpeg_fails "/home/me/video.mp4" None
         AudioExamples.empty_world)
  = Raise (Exception "FFmpeg failed: video.mp4: No such file or directory").
Proof. vm_compute. reflexivity. Qed.

Example ffmpeg_timeout_run :
  fst (extract_audio_from_video AudioExamples.ffmpeg_times_out "/home/me/video.mp4" None
         AudioExamples.empty_world)
  = Raise (Exception "Audio extraction timeout").
Proof. vm_compute. reflexivity. Qed.

(** The end-to-end run of a short link: the downloader is called, the
    transcript is reported, and the cost of 120 seconds is the float 0.012. *)
Example short_link_end_to_end :
  let run := process_video AudioExamples.two_minutes
               (audio_processor AudioExamples.two_minutes)
               "https://youtu.be/abc123" true AudioExamples.empty_world in
  fst run = Return (<["estimated_cost" := PyFloat 0.012]>
                      (transcribed {| text := "hello"; language := "en";
                                      duration := Some 120%float |})) /\
  calls (snd run) = [YtDlp "https://youtu.be/abc123" "/tmp/tmpa.%(ext)s";
                     Whisper "/tmp/tmpa.mp3"] /\
  stat (files (snd run)) AudioExamples.tmp = None.
Proof. repeat split; vm_compute; reflexivity. Qed.

(** [transcribe_audio] never raises: a missing file, a file over the limit
    and an error of the service all end in a failure dictionary. *)
Theorem transcribe_audio_never_raises E audio_path w :
  exists r w', transcribe_audio E audio_path w = (Return r, w').
Proof.
  destruct (transcribe_audio_cases E audio_path w) as [w' [[m H]|[t H]]];
    rewrite H; eexists; eexists; reflexivity.
Qed.

End AudioPipeline.

(** ** The TikTok search *)

Section SearchTheorems.
Import Py TikTokSearch SearchSpec.
Context {ops : StrOps}.
Local Open Scope py_scope.

Lemma obind_Return {A B} (o : outcome A) (k : A -> outcome B) b :
  obind o k = Return b -> exists a, o = Return a /\ k a = Return b.
Proof. destruct o as [a|e]; simpl; [eauto|discriminate]. Qed.

(** The log line of the trending tier cannot raise: the description went
    through [lower], so the title is a [str]. *)
Lemma video_data_title default_title video video_dict desc record :
  lower_desc video_dict = Return desc ->
  video_data default_title video video_dict = Return record ->
  exists title, get record "title" PyNone = Return title /\ title_prefix title = Return tt.
Proof.
  unfold lower_desc, video_data. unfold obind at 1 2.
  destruct (get video_dict "desc" (PyStr "")) as [d|]; [|discriminate].
  destruct d as [| | | |s| |]; try discriminate. intros _.
  intros H.
  repeat (apply obind_Return in H; destruct H as (? & _ & H)).
  injection H as <-. eexists. split; [reflexivity|].
  unfold py_or; destruct (truthy (PyStr s)); reflexivity.
Qed.

Lemma trending_item_run query video l :
  trending_item query video l =
  match trending_verdict query video with
  | Skipped => (Return false, l)
  | Passed => (Return true, l)
  | Kept record => (Return true, Locals (videos_var l ++ [record])%list (video_count_var l))
  end.
Proof.
  unfold trending_item, trending_verdict, try_except, bind, of_outcome, append_video, ret.
  destruct (lower_desc (as_dict video)) as [desc|e] eqn:Hdesc; [|reflexivity].
  destruct (relevant query desc); [|reflexivity].
  destruct (video_data "Trending TikTok video" video (as_dict video)) as [record|e]
    eqn:Hrecord; [|reflexivity].
  destruct (video_data_title _ _ _ _ _ Hdesc Hrecord) as (title & -> & ->). reflexivity.
Qed.

Lemma trending_records_skip query n video items :
  completes query video = false ->
  trending_records query n (video :: items) = trending_records query n items.
Proof. intros H. unfold trending_records. simpl. rewrite H. reflexivity. Qed.

Lemma trending_records_step query n video items :
  completes query video = true -> 0 < n ->
  trending_records query n (video :: items)
  = match kept query video with
    | Some record => record :: trending_records query (n - 1) items
    | None => trending_records query (n - 1) items
    end.
Proof.
  intros H Hn. unfold trending_records. simpl. rewrite H.
  replace (Z.to_nat n) with (S (Z.to_nat (n - 1))) by lia. simpl.
  destruct (kept query video); reflexivity.
Qed.

Lemma trending_records_done query n items : n <= 0 -> trending_records query n items = [].
Proof.
  intros Hn. unfold trending_records.
  replace (Z.to_nat n) with O by lia. reflexivity.
Qed.

(** The invariant of the trending loop: whatever way it ends, it has
    appended the records of the videos it got through. *)
Lemma trending_loop_run query max_results f :
  forall l, exists o count,
    trending_loop query max_results f l
    = (o, Locals (videos_var l
                  ++ trending_records query (max_results - video_count_var l) (feed_items f))%list
            count).
Proof.
  induction f as [| e | video rest IH]; intros [vs c]; simpl.
  - exists (Return tt), c. unfold ret, trending_records. simpl.
    rewrite take_nil, app_nil_r. reflexivity.
  - exists (Raise e), c. unfold raise, trending_records. simpl.
    rewrite take_nil, app_nil_r. reflexivity.
  - unfold bind at 1. unfold limit_reached. simpl.
    destruct (max_results <=? c) eqn:Hfull.
    + apply Z.leb_le in Hfull. exists (Return tt), c.
      rewrite trending_records_done by lia. rewrite app_nil_r. reflexivity.
    + apply Z.leb_gt in Hfull. unfold bind at 1. rewrite trending_item_run.
      destruct (trending_verdict query video) as [| |record] eqn:Hv; simpl.
      * destruct (IH (Locals vs c)) as (o & count & Hrun). simpl in Hrun.
        exists o, count. unfold bind, ret. rewrite Hrun.
        rewrite trending_records_skip by (unfold completes; rewrite Hv; reflexivity).
        reflexivity.
      * destruct (IH (Locals vs (c + 1))) as (o & count & Hrun). simpl in Hrun.
        exists o, count. unfold bind, count_video. simpl. rewrite Hrun.
        rewrite trending_records_step
          by (try lia; unfold completes; rewrite Hv; reflexivity).
        unfold kept. rewrite Hv.
        replace (max_results - c - 1) with (max_results - (c + 1)) by lia. reflexivity.
      * destruct (IH (Locals (vs ++ [record]) (c + 1))) as (o & count & Hrun).
        simpl in Hrun. exists o, count. unfold bind, count_video. simpl. rewrite Hrun.
        rewrite trending_records_step
          by (try lia; unfold completes; rewrite Hv; reflexivity).
        unfold kept. rewrite Hv.
        replace (max_results - c - 1) with (max_results - (c + 1)) by lia.
        rewrite <- app_assoc. reflexivity.
Qed.

(** The two tiers never raise: each has its handler. *)
Lemma collect_videos_returns E query max_results l :
  exists l', collect_videos E query max_results l = (Return tt, l').
Proof.
  unfold collect_videos, try_except.
  match goal with |- context [bind reset_count ?k l] => destruct (bind reset_count k l) as [[[]|e] l1] end.
  - eauto.
  - match goal with |- context [bind reset_count ?k l1] =>
      destruct (bind reset_count k l1) as [[[]|e'] l2] end; unfold ret; eauto.
Qed.

(** The [async with] block in closed form. *)
Lemma with_api_run E query max_results l :
  with_api E query max_results l =
  match api_enter E with
  | Some e => (Raise e, l)
  | None =>
      match session_error E with
      | Some e => (Raise (match api_exit E with Some e' => e' | None => e end), l)
      | None =>
          (match api_exit E with Some e' => Raise e' | None => Return tt end,
           snd (collect_videos E query max_results (Locals [] (video_count_var l))))
      end
  end.
Proof.
  unfold with_api, bind at 1, of_error at 1.
  destruct (api_enter E) as [e|]; [reflexivity|].
  unfold try_finally, session_error.
  assert (Hbody : forall l0,
    bind clear_videos (fun _ => collect_videos E query max_results) l0
    = (Return tt, snd (collect_videos E query max_results (Locals [] (video_count_var l0))))).
  { intros l0. unfold bind, clear_videos.
    destruct (collect_videos_returns E query max_results (Locals [] (video_count_var l0)))
      as [l' ->]. reflexivity. }
  destruct (ms_token E) as [token|]; simpl.
  - destruct (negb (String.eqb token "")); simpl.
    + unfold bind at 1, of_error at 1.
      destruct (create_sessions E token) as [e|].
      * unfold of_error. destruct (api_exit E); reflexivity.
      * rewrite Hbody. unfold of_error. destruct (api_exit E); reflexivity.
    + unfold bind at 1, ret. rewrite Hbody. unfold of_error.
      destruct (api_exit E); reflexivity.
  - unfold bind at 1, ret. rewrite Hbody. unfold of_error.
    destruct (api_exit E); reflexivity.
Qed.

Lemma search_unfold E query max_results :
  search_tiktok_videos E query max_results =
  match with_api E query max_results (Locals [] 0) with
  | (Return _, l) => Return (match videos_var l with
                              | [] => not_found query
                              | _ => found query (videos_var l)
                              end)
  | (Raise e, _) => Return (search_error e)
  end.
Proof.
  unfold search_tiktok_videos, try_except, bind, search_result, ret.
  destruct (with_api E query max_results (Locals [] 0)) as [[[]|e] l]; reflexivity.
Qed.

(** C7.  [search_tiktok_videos] always returns a result.  An exception that
    leaves the [async with] block, which can only come from entering it,
    from the session step or from leaving it, gives the result with success
    false, no videos, a count of 0 and the message that quotes it; when the
    block ends with no record collected the result has success false, no
    videos, a count of 0 and the not-found message; when records were
    collected the result has success true and holds them; and every result
    with success false has no videos and a count of 0. *)
Theorem search_never_throws E query max_results :
  exists r,
    search_tiktok_videos E query max_results = Return r /\
    (forall e l,
        with_api E query max_results (Locals [] 0) = (Raise e, l) ->
        success r = false /\ videos r = [] /\ total_found r = 0 /\
        message r
        = "Ошибка поиска TikTok: " +:+ str_exn e
          +:+ ". Совет: получите ms_token из браузера для лучших результатов." /\
        (api_enter E = Some e \/ session_error E = Some e \/ api_exit E = Some e)) /\
    (forall l,
        with_api E query max_results (Locals [] 0) = (Return tt, l) ->
        videos_var l = [] ->
        success r = false /\ videos r = [] /\ total_found r = 0 /\
        message r
        = "По запросу '" +:+ query
          +:+ "' TikTok видео не найдены. Попробуйте: 1) Добавить переменную ms_token из браузера, 2) Использовать более популярные ключевые слова.") /\
    (forall l,
        with_api E query max_results (Locals [] 0) = (Return tt, l) ->
        videos_var l <> [] ->
        success r = true /\ videos r = videos_var l /\
        total_found r = Z.of_nat (length (videos_var l))) /\
    (success r = false -> videos r = [] /\ total_found r = 0).
Proof.
  rewrite search_unfold.
  destruct (with_api E query max_results (Locals [] 0)) as [[[]|e] l] eqn:Hrun.
  - eexists. split; [reflexivity|]. split; [intros e l' H; discriminate H|].
    split; [|split].
    + intros l' [= <-] ->. repeat split.
    + intros l' [= <-] Hsome. destruct (videos_var l) as [|v vs]; [contradiction|].
      repeat split.
    + destruct (videos_var l); simpl; [auto|intros H; discriminate H].
  - eexists. split; [reflexivity|]. split; [|split; [|split]].
    + intros e' l' [= <- <-]. do 4 (split; [reflexivity|]).
      rewrite with_api_run in Hrun.
      destruct (api_enter E) as [e0|]; [injection Hrun as -> _; auto|].
      destruct (session_error E) as [e0|].
      * destruct (api_exit E) as [e1|]; injection Hrun as -> _; auto.
      * destruct (api_exit E) as [e1|]; [injection Hrun as -> _; auto|discriminate Hrun].
    + intros l' H. discriminate H.
    + intros l' H. discriminate H.
    + simpl. auto.
Qed.

(** A search whose session cannot be set up, and one that finds nothing. *)
Example search_failure_results :
  search_tiktok_videos (ops := ascii_ops)
    {| ms_token := Some "token";
       api_enter := None;
       create_sessions := fun _ => Some (OtherError "TimeoutError" "Timeout 30000ms exceeded");
       hashtag_videos := fun _ _ => FeedEnd;
       trending_videos := fun _ => FeedEnd;
       api_exit := None |} "cat" 5
  = Return {| success := false; videos := []; total_found := 0;
              message := "Ошибка поиска TikTok: Timeout 30000ms exceeded. Совет: получите ms_token из браузера для лучших результатов." |} /\
  search_tiktok_videos (ops := ascii_ops) (SearchExamples.env FeedEnd FeedEnd) "cat" 5
  = Return {| success := false; videos := []; total_found := 0;
              message := "По запросу 'cat' TikTok видео не найдены. Попробуйте: 1) Добавить переменную ms_token из браузера, 2) Использовать более популярные ключевые слова." |}.
Proof. split; vm_compute; reflexivity. Qed.

(** *** The hashtag tier and the size of the result *)

Lemma length_omap_take {A B} (f : A -> option B) n l :
  (length (omap f (take n l)) <= n)%nat.
Proof.
  unfold omap. revert n. induction l as [|a l IH]; intros [|n]; simpl; try lia.
  specialize (IH n). destruct (f a); simpl; lia.
Qed.

Lemma hashtag_item_run query video l :
  hashtag_item query video l =
  (Return tt,
   match hashtag_record query video with
   | Some record => Locals (videos_var l ++ [record])%list (video_count_var l + 1)
   | None => l
   end).
Proof.
  unfold hashtag_item, hashtag_record, try_except, bind, of_outcome, append_video,
    count_video, ret.
  destruct (video_data ("TikTok video about " +:+ query) video (as_dict video))
    as [record|e]; [|reflexivity].
  simpl. destruct (get record "title" PyNone) as [title|e]; [|reflexivity].
  destruct (title_prefix title) as [[]|e]; reflexivity.
Qed.

Lemma hashtag_records_done query n items : n <= 0 -> hashtag_records query n items = [].
Proof.
  intros Hn. unfold hashtag_records. replace (Z.to_nat n) with O by lia. reflexivity.
Qed.

(** The invariant of the hashtag loop. *)
Lemma hashtag_loop_run query max_results f :
  forall l, exists o count,
    hashtag_loop query max_results f l
    = (o, Locals (videos_var l
                  ++ hashtag_records query (max_results - video_count_var l) (feed_items f))%list
            count).
Proof.
  induction f as [| e | video rest IH]; intros [vs c]; simpl.
  - exists (Return tt), c. unfold ret, hashtag_records. simpl.
    rewrite take_nil, app_nil_r. reflexivity.
  - exists (Raise e), c. unfold raise, hashtag_records. simpl.
    rewrite take_nil, app_nil_r. reflexivity.
  - unfold bind at 1. unfold limit_reached. simpl.
    destruct (max_results <=? c) eqn:Hfull.
    + apply Z.leb_le in Hfull. exists (Return tt), c.
      rewrite hashtag_records_done by lia. rewrite app_nil_r. reflexivity.
    + apply Z.leb_gt in Hfull. unfold bind at 1. rewrite hashtag_item_run.
      unfold hashtag_records. unfold omap. simpl.
      destruct (hashtag_record query video) as [record|] eqn:Hrecord; simpl.
      * destruct (IH (Locals (vs ++ [record]) (c + 1))) as (o & count & Hrun).
        simpl in Hrun. exists o, count. rewrite Hrun.
        replace (Z.to_nat (max_results - c)) with (S (Z.to_nat (max_results - (c + 1))))
          by lia.
        simpl. rewrite <- app_assoc. reflexivity.
      * destruct (IH (Locals vs c)) as (o & count & Hrun). simpl in Hrun.
        exists o, count. rewrite Hrun. reflexivity.
Qed.

(** The two tiers in closed form: the hashtag records, followed by the
    trending records when the hashtag tier raised. *)
Lemma collect_videos_run E query max_results count :
  let hashtag := hashtag_videos E (str_lower (replace " " "" query)) max_results in
  exists count',
    collect_videos E query max_results (Locals [] count)
    = (Return tt,
       Locals (hashtag_records query max_results (feed_items hashtag)
               ++ match fst (hashtag_loop query max_results hashtag (Locals [] 0)) with
                  | Return _ => []
                  | Raise _ =>
                      trending_records query max_results
                        (feed_items (trending_videos E max_results))
                  end)%list
         count').
Proof.
  intros hashtag. unfold collect_videos, try_except. fold hashtag.
  unfold bind at 1, reset_count at 1. simpl.
  destruct (hashtag_loop_run query max_results hashtag (Locals [] 0)) as (o & c1 & Hrun).
  simpl in Hrun. rewrite Z.sub_0_r in Hrun. rewrite Hrun. simpl.
  destruct o as [[]|e].
  - exists c1. rewrite app_nil_r. reflexivity.
  - unfold bind at 1, reset_count. simpl.
    destruct (trending_loop_run query max_results (trending_videos E max_results)
                (Locals (hashtag_records query max_results (feed_items hashtag)) 0))
      as (o & c2 & Hrun2).
    simpl in Hrun2. rewrite Z.sub_0_r in Hrun2. rewrite Hrun2.
    exists c2. destruct o as [[]|e']; reflexivity.
Qed.

Lemma length_hashtag_records query n items :
  (length (hashtag_records query n items) <= Z.to_nat n)%nat.
Proof. unfold hashtag_records. rewrite length_take. lia. Qed.

Lemma length_trending_records query n items :
  (length (trending_records query n items) <= Z.to_nat n)%nat.
Proof. unfold trending_records. apply length_omap_take. Qed.

(** What does hold of the size of the result: each tier adds at most
    [max_results] records, so the result has at most twice that, and at most
    [max_results] when the hashtag tier ends without raising. *)
Theorem search_result_size E query max_results :
  exists r,
    search_tiktok_videos E query max_results = Return r /\
    (length (videos r) <= 2 * Z.to_nat max_results)%nat /\
    (fst (hashtag_loop query max_results
            (hashtag_videos E (str_lower (replace " " "" query)) max_results)
            (Locals [] 0)) = Return tt ->
     (length (videos r) <= Z.to_nat max_results)%nat).
Proof.
  rewrite search_unfold, with_api_run.
  assert (Herr : forall e, exists r,
    Return (search_error e) = Return r /\
    (length (videos r) <= 2 * Z.to_nat max_results)%nat /\
    (fst (hashtag_loop query max_results
            (hashtag_videos E (str_lower (replace " " "" query)) max_results)
            (Locals [] 0)) = Return tt ->
     (length (videos r) <= Z.to_nat max_results)%nat)).
  { intros e. eexists. split; [reflexivity|]. simpl. split; intros; lia. }
  destruct (api_enter E); [apply Herr|].
  destruct (session_error E); [apply Herr|].
  destruct (api_exit E); [apply Herr|]. simpl.
  destruct (collect_videos_run E query max_results 0) as [count' ->]. simpl.
  set (h := hashtag_records query max_results _).
  set (t := match _ with Return _ => [] | Raise _ => _ end).
  assert (Hh : (length h <= Z.to_nat max_results)%nat) by apply length_hashtag_records.
  assert (Ht : (length t <= Z.to_nat max_results)%nat).
  { subst t. destruct (fst _); [simpl; lia|apply length_trending_records]. }
  assert (Hshape : exists r,
    Return (match (h ++ t)%list with
            | [] => not_found query
            | _ :: _ => found query (h ++ t)
            end) = Return r /\ videos r = (h ++ t)%list).
  { destruct (h ++ t)%list eqn:Hrec; eexists; (split; [reflexivity|]); reflexivity. }
  destruct Hshape as (r & Hr & Hvideos).
  exists r. split; [exact Hr|]. rewrite Hvideos, length_app. split; [lia|].
  intros Hok. subst t. rewrite Hok. simpl. lia.
Qed.

(** *** The trending tier *)

Lemma collect_videos_fallback E query max_results e count :
  hashtag_videos E (str_lower (replace " " "" query)) max_results = FeedRaise e ->
  exists count',
    collect_videos E query max_results (Locals [] count)
    = (Return tt,
       Locals (trending_records query max_results (feed_items (trending_videos E max_results)))
         count').
Proof.
  intros Hfeed. unfold collect_videos, try_except. rewrite Hfeed.
  unfold bind at 1, reset_count at 1. simpl. unfold raise.
  unfold bind at 1, reset_count. simpl.
  destruct (trending_loop_run query max_results (trending_videos E max_results) (Locals [] 0))
    as (o & count' & Hrun).
  simpl in Hrun. rewrite Z.sub_0_r in Hrun. rewrite Hrun.
  exists count'. destruct o as [[]|e']; reflexivity.
Qed.

Lemma kept_matches query video record :
  kept query video = Some record -> matches query video = true.
Proof.
  unfold kept, matches, trending_verdict.
  destruct (lower_desc (as_dict video)) as [desc|]; [|discriminate].
  destruct (relevant query desc); [reflexivity|discriminate].
Qed.

Lemma kept_completes query video record :
  kept query video = Some record -> completes query video = true.
Proof.
  unfold kept, completes. destruct (trending_verdict query video); [discriminate| |]; reflexivity.
Qed.

Lemma completes_kept query video :
  completes query video = true ->
  is_Some (kept query video) <-> matches query video = true.
Proof.
  unfold completes, kept, matches, trending_verdict.
  destruct (lower_desc (as_dict video)) as [desc|]; [|discriminate].
  destruct (relevant query desc).
  - destruct (video_data "Trending TikTok video" video (as_dict video)); [|discriminate].
    intros _. split; eauto.
  - intros _. split; [intros [x Hx]; discriminate Hx|discriminate].
Qed.

Lemma length_records_matches query n items :
  (length (omap (kept query) (take n (List.filter (completes query) items)))
   <= length (List.filter (matches query) items))%nat.
Proof.
  unfold omap. revert n. induction items as [|v items IH]; intros n; simpl.
  - rewrite take_nil. simpl. lia.
  - destruct (completes query v) eqn:Hc.
    + destruct n as [|n]; simpl; [lia|].
      specialize (IH n).
      destruct (kept query v) as [record|] eqn:Hk; simpl.
      * rewrite (kept_matches _ _ _ Hk). simpl. lia.
      * destruct (matches query v); simpl; lia.
    + specialize (IH n). destruct (matches query v); simpl; lia.
Qed.

Lemma length_omap_kept query items :
  Forall (fun v => completes query v = true) items ->
  length (omap (kept query) items) = length (List.filter (matches query) items).
Proof.
  unfold omap. induction 1 as [|v items Hv _ IH]; simpl; [reflexivity|].
  pose proof (completes_kept query v Hv) as Hiff.
  destruct (kept query v) as [record|] eqn:Hk; destruct (matches query v) eqn:Hm; simpl.
  - rewrite IH. reflexivity.
  - assert (false = true) by (apply Hiff; eauto). discriminate.
  - assert (Hs : is_Some (@None pyval)) by (apply Hiff; reflexivity).
    destruct Hs as [x Hx]. discriminate Hx.
  - exact IH.
Qed.

Lemma filter_all {A} (f : A -> bool) l :
  Forall (fun v => f v = true) l -> List.filter f l = l.
Proof.
  induction 1 as [|v l Hv _ IH]; simpl; [reflexivity|]. rewrite Hv, IH. reflexivity.
Qed.

(** The code's reading of the description agrees with [description]. *)
Lemma lower_desc_description video :
  match description video with
  | Some desc => lower_desc (as_dict video) = Return (str_lower desc)
  | None => exists e, lower_desc (as_dict video) = Raise e
  end.
Proof.
  unfold description, lower_desc, get, obind.
  destruct (as_dict video) as [| | | | | |kvs]; try (eexists; reflexivity).
  destruct (assoc "desc" kvs) as [[| | | |desc| |]|]; try reflexivity; eexists; reflexivity.
Qed.

(** The test of line 103 is the relevance test of the specification. *)
Lemma matches_mentions query video : matches query video = true <-> mentions query video.
Proof.
  unfold matches, mentions. pose proof (lower_desc_description video) as H.
  destruct (description video) as [desc|].
  - rewrite H. unfold relevant. rewrite existsb_exists. split.
    + intros (token & Hin & Hc). exists desc, token.
      split; [reflexivity|]. split; [exact Hin|]. apply contains_occurs. exact Hc.
    + intros (desc' & token & [= <-] & Hin & Ho). exists token.
      split; [exact Hin|]. apply contains_occurs. exact Ho.
  - destruct H as [e ->]. split; [discriminate|].
    intros (desc & token & Hdesc & _). discriminate Hdesc.
Qed.

Lemma kept_mentions query video record :
  kept query video = Some record <->
  mentions query video /\
  video_data "Trending TikTok video" video (as_dict video) = Return record.
Proof.
  rewrite <- matches_mentions. unfold kept, matches, trending_verdict.
  destruct (lower_desc (as_dict video)) as [desc|];
    [|split; [discriminate|intros [H _]; discriminate H]].
  destruct (relevant query desc); [|split; [discriminate|intros [H _]; discriminate H]].
  destruct (video_data "Trending TikTok video" video (as_dict video)) as [r|e]; split.
  - intros [= <-]. auto.
  - intros [_ [= <-]]. reflexivity.
  - discriminate.
  - intros [_ H]. discriminate H.
Qed.

Lemma completes_mentions query video :
  completes query video = false <->
  description video = None \/
  (mentions query video /\
   exists e, video_data "Trending TikTok video" video (as_dict video) = Raise e).
Proof.
  rewrite <- matches_mentions. unfold completes, matches, trending_verdict.
  pose proof (lower_desc_description video) as H.
  destruct (description video) as [desc|].
  - rewrite H. destruct (relevant query (str_lower desc)).
    + destruct (video_data "Trending TikTok video" video (as_dict video)) as [r|e].
      * split; [discriminate|]. intros [Hn|[_ [e He]]]; discriminate.
      * split; [intros _; right; eauto|reflexivity].
    + split; [discriminate|]. intros [Hn|[Hm _]]; discriminate.
  - destruct H as [e ->]. split; auto.
Qed.

(** C4, as amended.  When the client is entered, the session set up and the
    client left without error, and the hashtag call raises before it yields
    a video, the result holds exactly the trending records: of the first
    [max_results] trending videos processed without error, those whose
    description contains a token of the query, in feed order.  That is at
    most [min(K, max_results)] records, and exactly [K] when the feed yields
    no more than [max_results] videos and none fails.  The first three
    parts say what the tests of the code are in the words of the
    specification: a description contains a token when some
    whitespace-split token of the query occurs in it once both are
    lower-cased; a video is kept when that holds and its record can be
    built; and a video fails when its description cannot be read as text or
    it matches and its record cannot be built. *)
Theorem trending_fallback_records E query max_results e :
  api_enter E = None -> session_error E = None -> api_exit E = None ->
  hashtag_videos E (str_lower (replace " " "" query)) max_results = FeedRaise e ->
  let items := feed_items (trending_videos E max_results) in
  let K := length (List.filter (matches query) items) in
  (forall video, matches query video = true <-> mentions query video) /\
  (forall video record,
      kept query video = Some record <->
      mentions query video /\
      video_data "Trending TikTok video" video (as_dict video) = Return record) /\
  (forall video,
      completes query video = false <->
      description video = None \/
      (mentions query video /\
       exists e', video_data "Trending TikTok video" video (as_dict video) = Raise e')) /\
  exists r,
    search_tiktok_videos E query max_results = Return r /\
    videos r = omap (kept query)
                 (take (Z.to_nat max_results) (List.filter (completes query) items)) /\
    success r = negb (Nat.eqb (length (videos r)) 0) /\
    total_found r = Z.of_nat (length (videos r)) /\
    (length (videos r) <= Nat.min K (Z.to_nat max_results))%nat /\
    (Z.of_nat (length items) <= max_results ->
     Forall (fun v => completes query v = true) items ->
     length (videos r) = K).
Proof.
  intros Henter Hsession Hexit Hfeed items K.
  split; [intros video; apply matches_mentions|].
  split; [intros video record; apply kept_mentions|].
  split; [intros video; apply completes_mentions|].
  rewrite search_unfold, with_api_run, Henter, Hsession, Hexit. simpl.
  destruct (collect_videos_fallback E query max_results e 0 Hfeed) as [count' ->]. simpl.
  fold items.
  assert (Hshape : exists r,
    Return (match trending_records query max_results items with
            | [] => not_found query
            | _ :: _ => found query (trending_records query max_results items)
            end) = Return r /\
    videos r = trending_records query max_results items /\
    success r = negb (Nat.eqb (length (videos r)) 0) /\
    total_found r = Z.of_nat (length (videos r))).
  { destruct (trending_records query max_results items) eqn:Hrec;
      eexists; (split; [reflexivity|]); simpl; auto. }
  destruct Hshape as (r & Hr & Hvideos & Hsuccess & Htotal).
  exists r. split; [exact Hr|]. split; [exact Hvideos|].
  split; [exact Hsuccess|]. split; [exact Htotal|].
  rewrite Hvideos. unfold trending_records. split.
  - apply Nat.min_glb; [apply length_records_matches|apply length_omap_take].
  - intros Hlen Hall. rewrite filter_all by exact Hall.
    rewrite take_ge by lia. apply length_omap_kept. exact Hall.
Qed.

End SearchTheorems.

(** *** Runs of the search *)

Section SearchRuns.
Import Py TikTokSearch SearchSpec.

(** The hashtag call fails at once and the trending feed yields three
    videos, one of them about cats; with room for five, that one is
    returned: every video is processed without error, so the count is
    exactly [K] = 1. *)
Lemma trending_fallback_records_witness :
  let E := SearchExamples.cat_comes_third in
  let items := feed_items (trending_videos E 5) in
  let K := length (List.filter (matches (ops := ascii_ops) "cat") items) in
  exists r,
    search_tiktok_videos (ops := ascii_ops) E "cat" 5 = Return r /\
    videos r = omap (kept (ops := ascii_ops) "cat")
                 (take (Z.to_nat 5) (List.filter (completes (ops := ascii_ops) "cat") items)) /\
    success r = true /\
    total_found r = 1 /\
    length (videos r) = K /\
    K = 1%nat /\
    Z.of_nat (length items) <= 5 /\
    Forall (fun v => completes (ops := ascii_ops) "cat" v = true) items /\
    mentions (ops := ascii_ops) "cat" (SearchExamples.video "3" "carol" "my cat").
Proof.
  intros E items K.
  destruct (trending_fallback_records (ops := ascii_ops) SearchExamples.cat_comes_third
              "cat" 5 (OtherError "TimeoutError" "Timeout 30000ms exceeded")
              eq_refl eq_refl eq_refl eq_refl)
    as (Hmentions & _ & _ & r & Hr & Hvideos & Hsuccess & Htotal & _ & Hexact).
  assert (Hlen : Z.of_nat (length items) <= 5) by (vm_compute; discriminate).
  assert (Hall : Forall (fun v => completes (ops := ascii_ops) "cat" v = true) items)
    by (repeat constructor).
  assert (HK : length (videos r) = 1%nat) by (rewrite (Hexact Hlen Hall); reflexivity).
  exists r. split; [exact Hr|]. split; [exact Hvideos|].
  split; [rewrite Hsuccess, HK; reflexivity|].
  split; [rewrite Htotal, HK; reflexivity|].
  split; [exact (Hexact Hlen Hall)|]. split; [reflexivity|].
  split; [exact Hlen|]. split; [exact Hall|].
  apply Hmentions. reflexivity.
Defined.

(** The record of that run. *)
Example trending_fallback_run :
  search_tiktok_videos (ops := ascii_ops) SearchExamples.cat_comes_third "cat" 5
  = Return {|
      success := true;
      videos := [PyDict [
        ("video_id", PyStr "3"); ("platform", PyStr "tiktok"); ("title", PyStr "my cat");
        ("description", PyStr "my cat");
        ("url", PyStr "https://www.tiktok.com/@carol/video/3");
        ("thumbnail_url", PyStr ""); ("views", PyInt 0); ("likes", PyInt 0);
        ("comments", PyInt 0); ("duration", PyInt 30); ("published_at", PyStr "1700000000");
        ("author", PyStr "carol"); ("hashtags", PyList []); ("music", PyStr "")]];
      total_found := 1;
      message := "Найдено 1 TikTok видео по запросу 'cat'"
    |}.
Proof. vm_compute. reflexivity. Qed.

(** C4 as stated fails.  The hashtag call raises, the trending feed yields
    N = 3 videos of which K = 1 has a description containing the token, and
    with [max_results] = 2 the claim promises min(1, 2) = 1 record; the loop
    stops after two videos and the result has none. *)
Lemma trending_fallback_misses_match :
  let E := SearchExamples.cat_comes_third in
  let items := feed_items (trending_videos E 2) in
  hashtag_videos E (@str_lower ascii_ops (replace " " "" "cat")) 2
  = FeedRaise (OtherError "TimeoutError" "Timeout 30000ms exceeded") /\
  length items = 3%nat /\
  length (List.filter (matches (ops := ascii_ops) "cat") items) = 1%nat /\
  Z.min 1 2 = 1 /\
  search_tiktok_videos (ops := ascii_ops) E "cat" 2 = Return (not_found "cat") /\
  length (videos (not_found "cat")) = 0%nat.
Proof. repeat split; vm_compute; reflexivity. Qed.

(** C3 fails on the code.  The hashtag feed yields one video and raises on
    its second page, the trending feed holds two videos about cats, and a
    search for at most 2 results returns 3: the count starts again from 0 in
    the trending tier while the list keeps the record of the first. *)
Theorem search_exceeds_max_results :
  exists r,
    search_tiktok_videos (ops := ascii_ops) SearchExamples.second_page_fails "cat" 2
    = Return r /\
    success r = true /\
    length (videos r) = 3%nat /\
    total_found r = 3 /\
    (2 <? total_found r) = true.
Proof. eexists. split; [vm_compute; reflexivity|]. repeat split. Qed.

End SearchRuns.

(** ** The URL pattern *)

Section UrlPattern.
Import Py AudioProcessor.

Lemma append_assoc (a b c : string) : (a +:+ b) +:+ c = a +:+ (b +:+ c).
Proof.
  induction a as [|x a IH]; [reflexivity|]. rewrite !append_cons, IH. reflexivity.
Qed.

Lemma prefix_skip l : forall s, String.prefix l s = true -> s = l +:+ skip (String.length l) s.
Proof.
  induction l as [|a l IH]; intros s H; [reflexivity|].
  destruct s as [|b s]; [discriminate|]. simpl in H.
  destruct (ascii_dec a b) as [->|]; [|discriminate].
  rewrite append_cons. simpl. rewrite <- (IH s H). reflexivity.
Qed.

Lemma prefix_append l1 l2 : forall s,
  String.prefix (l1 +:+ l2) s
  = String.prefix l1 s && String.prefix l2 (skip (String.length l1) s).
Proof.
  induction l1 as [|a l1 IH]; intros s; [destruct s; reflexivity|].
  rewrite append_cons.
  destruct s as [|b s]; simpl; [reflexivity|].
  destruct (ascii_dec a b); [apply IH|reflexivity].
Qed.

(** A match consumes a prefix: what is left is a suffix of the subject. *)
Lemma rmatch_suffix r : forall s t, In t (rmatch r s) -> exists p, s = p +:+ t.
Proof.
  induction r as [l|r1 IH1 r2 IH2|r1 IH1 r2 IH2|r1 IH1]; intros s t Hin; simpl in Hin.
  - destruct (String.prefix l s) eqn:Hp; [|destruct Hin].
    destruct Hin as [<-|[]]. exists l. apply prefix_skip. exact Hp.
  - apply in_flat_map in Hin as (u & Hu & Ht).
    destruct (IH1 _ _ Hu) as [p1 ->]. destruct (IH2 _ _ Ht) as [p2 ->].
    exists (p1 +:+ p2). symmetry. apply append_assoc.
  - apply in_app_or in Hin as [H|H]; eauto.
  - apply in_app_or in Hin as [H|[<-|[]]]; [eauto|]. exists "". reflexivity.
Qed.

Lemma matches_at_In r s : matches_at r s = true <-> exists t, In t (rmatch r s).
Proof.
  unfold matches_at. destruct (rmatch r s) as [|t ts]; split.
  - discriminate.
  - intros [t []].
  - intros _. exists t. left. reflexivity.
  - reflexivity.
Qed.

Lemma re_search_append r p : forall t, matches_at r t = true -> re_search r (p +:+ t) = true.
Proof.
  induction p as [|c p IH]; intros t H.
  - change ("" +:+ t) with t. destruct t; simpl; rewrite H; reflexivity.
  - rewrite append_cons. simpl. rewrite (IH t H). apply orb_true_r.
Qed.

Lemma re_search_found r : forall s,
  re_search r s = true -> exists p t, s = p +:+ t /\ matches_at r t = true.
Proof.
  induction s as [|c s IH]; simpl; intros H.
  - rewrite orb_false_r in H. exists "", "". auto.
  - apply orb_true_iff in H as [H|H].
    + exists "", (String c s). auto.
    + destruct (IH H) as (p & t & -> & Ht). exists (String c p), t. auto.
Qed.

Lemma re_search_iff r s :
  re_search r s = true <-> exists p t, s = p +:+ t /\ matches_at r t = true.
Proof.
  split; [apply re_search_found|]. intros (p & t & -> & H). apply re_search_append, H.
Qed.

(** An optional prefix does not change what a search finds. *)
Lemma re_search_optional a b s : re_search (Seq (Opt a) b) s = re_search b s.
Proof.
  apply eq_true_iff_eq. rewrite !re_search_iff. split; intros (p & t & -> & H).
  - apply matches_at_In in H as [u Hu]. simpl in Hu.
    apply in_flat_map in Hu as (v & Hv & Hu).
    assert (Hb : matches_at b v = true) by (apply matches_at_In; eauto).
    apply in_app_or in Hv as [Hv|[<-|[]]].
    + destruct (rmatch_suffix _ _ _ Hv) as [q ->].
      exists (p +:+ q), v. split; [symmetry; apply append_assoc|exact Hb].
    + eauto.
  - exists p, t. split; [reflexivity|].
    apply matches_at_In in H as [u Hu]. apply matches_at_In. exists u. simpl.
    apply in_flat_map. exists t. split; [apply in_or_app; right; left; reflexivity|exact Hu].
Qed.

Lemma re_search_ext r r' :
  (forall t, matches_at r t = matches_at r' t) -> forall s, re_search r s = re_search r' s.
Proof.
  intros H. induction s as [|c s IH]; simpl; rewrite H; [reflexivity|].
  rewrite IH. reflexivity.
Qed.

Lemma matches_at_alt a b t : matches_at (Alt a b) t = matches_at a t || matches_at b t.
Proof.
  unfold matches_at. simpl. destruct (rmatch a t); simpl; [|reflexivity].
  destruct (rmatch b t); reflexivity.
Qed.

Lemma re_search_alt a b : forall s, re_search (Alt a b) s = re_search a s || re_search b s.
Proof.
  induction s as [|c s IH]; simpl; rewrite matches_at_alt.
  - rewrite !orb_false_r. reflexivity.
  - rewrite IH.
    destruct (matches_at a (String c s)), (matches_at b (String c s)),
      (re_search a s), (re_search b s); reflexivity.
Qed.

Lemma matches_at_lit l t : matches_at (Lit l) t = String.prefix l t.
Proof. unfold matches_at. simpl. destruct (String.prefix l t); reflexivity. Qed.

Lemma re_search_lit l : forall s, re_search (Lit l) s = contains l s.
Proof.
  induction s as [|c s IH]; simpl; rewrite matches_at_lit; [reflexivity|].
  rewrite IH. reflexivity.
Qed.

Lemma matches_at_lit_seq l r t :
  matches_at (Seq (Lit l) r) t
  = String.prefix l t && matches_at r (skip (String.length l) t).
Proof.
  unfold matches_at. simpl. destruct (String.prefix l t); simpl; [|reflexivity].
  rewrite app_nil_r. reflexivity.
Qed.

Lemma re_search_lit_lit l1 l2 s : re_search (Seq (Lit l1) (Lit l2)) s = contains (l1 +:+ l2) s.
Proof.
  rewrite <- re_search_lit. apply re_search_ext. intros t.
  rewrite matches_at_lit_seq, !matches_at_lit. symmetry. apply prefix_append.
Qed.

Lemma re_search_lit_alt l a b s :
  re_search (Seq (Lit l) (Alt a b)) s
  = re_search (Seq (Lit l) a) s || re_search (Seq (Lit l) b) s.
Proof.
  rewrite <- re_search_alt. apply re_search_ext. intros t.
  rewrite matches_at_alt, !matches_at_lit_seq, matches_at_alt.
  destruct (String.prefix l t); reflexivity.
Qed.

(** The pattern of [is_youtube_url] read as a test on substrings: a
    reference is a YouTube URL exactly when it contains one of the four path
    shapes; the scheme and [www.] are optional and decide nothing. *)
Theorem is_youtube_url_substrings url :
  is_youtube_url url
  = contains "youtube.com/watch?v=" url || contains "youtube.com/embed/" url
    || contains "youtube.com/v/" url || contains "youtu.be/" url.
Proof.
  unfold is_youtube_url, youtube_pattern.
  rewrite !re_search_optional, re_search_alt, !re_search_lit_alt, !re_search_lit_lit,
    re_search_lit.
  simpl. rewrite !orb_assoc. reflexivity.
Qed.

End UrlPattern.

(** ** More of the audio pipeline *)

Section AudioMore.
Import Py AudioProcessor AudioSpec MoreSpec.
Local Open Scope py_scope.

(** [transcribe_audio] in closed form on the world: the files are left
    alone, and the call log grows by the one request, when it is made. *)
Lemma transcribe_audio_world E audio_path w :
  exists r,
    transcribe_audio E audio_path w
    = (Return r,
       World (files w)
         (calls w ++ if service_called w audio_path then [Whisper audio_path] else [])%list).
Proof.
  unfold transcribe_audio, try_except, bind, os_path_getsize, whisper_transcribe, bind,
    open_rb, of_outcome, ret, service_called.
  destruct w as [fs cs]. simpl.
  destruct (stat fs audio_path) as [size|] eqn:Hstat; simpl.
  - destruct (25 * 1024 * 1024 <? size); simpl.
    + destruct (size_in_mb size); rewrite app_nil_r; eexists; reflexivity.
    + rewrite Hstat. destruct (transcriptions_create E audio_path); eexists; reflexivity.
  - rewrite app_nil_r. eexists. reflexivity.
Qed.

(** The transcription step never creates, removes or resizes a file. *)
Theorem transcribe_audio_keeps_files E audio_path w :
  files (snd (transcribe_audio E audio_path w)) = files w.
Proof.
  destruct (transcribe_audio_world E audio_path w) as [r ->]. reflexivity.
Qed.



(** A path that names no file ends in the failure dictionary, whose message
    quotes the error of [os.path.getsize]; the service is not contacted and
    nothing changes. *)
Theorem transcribe_audio_missing_file E audio_path w :
  stat (files w) audio_path = None ->
  exists m,
    transcribe_audio E audio_path w
    = (Return (failure ("Ошибка транскрипции: " +:+ m)), w).
Proof.
  intros Hstat. unfold transcribe_audio, try_except, bind, os_path_getsize, ret.
  rewrite Hstat. eexists. reflexivity.
Qed.

Lemma transcribe_audio_missing_file_witness :
  exists m,
    transcribe_audio AudioExamples.ok "gone.mp3" AudioExamples.empty_world
    = (Return (failure ("Ошибка транскрипции: " +:+ m)), AudioExamples.empty_world).
Proof.
  exact (transcribe_audio_missing_file AudioExamples.ok "gone.mp3"
           AudioExamples.empty_world eq_refl).
Defined.


Lemma after_fetch_world E p w1 :
  exists o,
    after_fetch (audio_processor E) p w1
    = (o, World (files w1)
            (calls w1 ++ if service_called w1 p then [Whisper p] else [])%list).
Proof.
  unfold after_fetch, bind, of_outcome. simpl.
  destruct (transcribe_audio_world E p w1) as [r ->].
  destruct (attach_estimated_cost r); eexists; reflexivity.
Qed.



(** A run of [process_video] leaves every file other than the asset as the
    fetch left it, and with cleanup off the asset too. *)
Theorem process_video_keeps_other_files E video_url cleanup w p w1 :
  extract_audio_from_video E video_url None w = (Return p, w1) ->
  let w' := snd (process_video E (audio_processor E) video_url cleanup w) in
  (forall q, q <> p -> files w' !! q = files w1 !! q) /\
  (cleanup = false -> files w' = files w1).
Proof.
  intros Hfetch. rewrite process_video_unfold. simpl. rewrite Hfetch.
  destruct (after_fetch_world E p w1) as [o ->]. simpl. split.
  - intros q Hq. destruct cleanup; simpl; [|reflexivity].
    destruct (negb (String.eqb p "")); simpl; [|reflexivity].
    destruct (stat (files w1) p); [|reflexivity].
    destruct (unlink_error E p); simpl; [reflexivity|].
    apply lookup_delete_ne. congruence.
  - intros ->. reflexivity.
Qed.

Lemma process_video_keeps_other_files_witness :
  let w1 := snd (extract_audio_from_video AudioExamples.ok "/home/me/video.mp4" None
                   AudioExamples.big_file_world) in
  let w' := snd (process_video AudioExamples.ok (audio_processor AudioExamples.ok)
                   "/home/me/video.mp4" true AudioExamples.big_file_world) in
  (forall q, q <> AudioExamples.tmp -> files w' !! q = files w1 !! q) /\
  (true = false -> files w' = files w1).
Proof.
  exact (process_video_keeps_other_files AudioExamples.ok "/home/me/video.mp4" true
           AudioExamples.big_file_world AudioExamples.tmp _ eq_refl).
Defined.

(** *** Failures of the download *)

(** When yt-dlp fails on a YouTube URL, [process_video] reports the failure
    dictionary whose message chains the two prefixes before the error of
    yt-dlp; the service is not contacted, and the temporary file stays even
    with cleanup on, for [audio_path] was never bound. *)
Theorem youtube_download_failure E video_url cleanup w path w1 e :
  is_youtube_url video_url = true ->
  output_file E None w = (Return path, w1) ->
  ytdlp_error E video_url (replace ".mp3" ".%(ext)s" path) = Some e ->
  process_video E (audio_processor E) video_url cleanup w
  = (Return (failure ("Ошибка обработки видео: YouTube download failed: " +:+ str_exn e)),
     World (ytdlp_files E video_url (replace ".mp3" ".%(ext)s" path) (files w1))
       (calls w1 ++ [YtDlp video_url (replace ".mp3" ".%(ext)s" path)])%list).
Proof.
  intros Hurl Hfile Herr. rewrite process_video_unfold.
  cbn [self_extract_audio_from_video audio_processor].
  unfold extract_audio_from_video, try_except. rewrite Hurl.
  unfold download_youtube_audio, try_except, bind, ydl_download, raise, ret.
  rewrite Hfile, Herr. reflexivity.
Qed.

Lemma youtube_download_failure_witness :
  process_video MoreExamples.ytdlp_fails (audio_processor MoreExamples.ytdlp_fails)
    "https://youtu.be/abc123" true AudioExamples.empty_world
  = (Return (failure ("Ошибка обработки видео: YouTube download failed: "
                      +:+ str_exn (OtherError "DownloadError" "ERROR: Video unavailable"))),
     World (ytdlp_files MoreExamples.ytdlp_fails "https://youtu.be/abc123"
              (replace ".mp3" ".%(ext)s" AudioExamples.tmp)
              (files (snd (output_file MoreExamples.ytdlp_fails None
                             AudioExamples.empty_world))))
       (calls (snd (output_file MoreExamples.ytdlp_fails None AudioExamples.empty_world))
        ++ [YtDlp "https://youtu.be/abc123"
              (replace ".mp3" ".%(ext)s" AudioExamples.tmp)])%list).
Proof.
  exact (youtube_download_failure MoreExamples.ytdlp_fails "https://youtu.be/abc123" true
           AudioExamples.empty_world AudioExamples.tmp _
           (OtherError "DownloadError" "ERROR: Video unavailable")
           eq_refl eq_refl eq_refl).
Defined.

(** *** What reaches the caller *)

Lemma attach_estimated_cost_keeps tr r key :
  attach_estimated_cost tr = Return r -> key <> "estimated_cost" -> r !! key = tr !! key.
Proof.
  unfold attach_estimated_cost. intros H Hkey.
  destruct (truthy (dict_get tr "duration")); [|injection H as <-; reflexivity].
  destruct (cost_of (dict_get tr "duration")); [|discriminate H].
  injection H as <-. apply lookup_insert_ne. congruence.
Qed.

Lemma attach_estimated_cost_transcribed t :
  exists r, attach_estimated_cost (transcribed t) = Return r.
Proof.
  unfold attach_estimated_cost, dict_get. rewrite transcribed_duration.
  destruct (duration t) as [d|]; simpl; [|eexists; reflexivity].
  destruct (negb (PrimFloat.eqb d 0)); eexists; reflexivity.
Qed.

(** Whatever dictionary [transcribe_audio] returns reaches the caller of
    [process_video] field by field: the run only ever adds
    [estimated_cost]. *)
Theorem process_video_reports_transcription E video_url cleanup w p w1 tr w2 :
  extract_audio_from_video E video_url None w = (Return p, w1) ->
  transcribe_audio E p w1 = (Return tr, w2) ->
  exists r,
    fst (process_video E (audio_processor E) video_url cleanup w) = Return r /\
    forall key, key <> "estimated_cost" -> r !! key = tr !! key.
Proof.
  intros Hfetch Htr. rewrite process_video_unfold.
  cbn [self_extract_audio_from_video audio_processor]. rewrite Hfetch.
  unfold after_fetch, bind, of_outcome.
  cbn [self_transcribe_audio audio_processor]. rewrite Htr.
  assert (Hr : exists r, attach_estimated_cost tr = Return r).
  { destruct (transcribe_audio_cases E p w1) as [w2' [[m Hm]|[t Ht]]];
      rewrite Htr in *.
    - injection Hm as -> _. rewrite attach_estimated_cost_failure. eexists; reflexivity.
    - injection Ht as -> _. apply attach_estimated_cost_transcribed. }
  destruct Hr as [r Hr]. rewrite Hr. exists r. split; [reflexivity|].
  intros key Hkey. apply (attach_estimated_cost_keeps tr r key Hr Hkey).
Qed.

Lemma process_video_reports_transcription_witness :
  exists r,
    fst (process_video AudioExamples.ok (audio_processor AudioExamples.ok)
           "/home/me/video.mp4" false AudioExamples.empty_world) = Return r /\
    forall key, key <> "estimated_cost" ->
      r !! key
      = transcribed {| text := "hello"; language := "en"; duration := Some 600%float |}
          !! key.
Proof.
  refine (process_video_reports_transcription AudioExamples.ok "/home/me/video.mp4" false
            AudioExamples.empty_world AudioExamples.tmp _ _ _ eq_refl _).
  vm_compute. reflexivity.
Defined.

(** A duration that is text discards the transcription: the division raises
    [TypeError] inside the try suite, and the caller gets the failure
    dictionary instead of the transcript. *)
Theorem text_duration_discards_transcript E self video_url cleanup w p w1 tr w2 s :
  self_extract_audio_from_video self video_url None w = (Return p, w1) ->
  self_transcribe_audio self p w1 = (Return tr, w2) ->
  tr !! "duration" = Some (PyStr s) -> s <> "" ->
  fst (process_video E self video_url cleanup w)
  = Return (failure ("Ошибка обработки видео: "
                     +:+ "unsupported operand type(s) for /: 'str' and 'int'")).
Proof.
  intros Hfetch Htr Hd Hs. rewrite process_video_unfold, Hfetch.
  unfold after_fetch, bind, of_outcome. rewrite Htr.
  unfold attach_estimated_cost, dict_get. rewrite Hd. simpl.
  destruct (String.eqb s "") eqn:Heq; [apply String.eqb_eq in Heq; contradiction|].
  reflexivity.
Qed.

Lemma text_duration_discards_transcript_witness :
  fst (process_video AudioExamples.ok MoreExamples.text_duration "video.mp4" true
         AudioExamples.empty_world)
  = Return (failure ("Ошибка обработки видео: "
                     +:+ "unsupported operand type(s) for /: 'str' and 'int'")).
Proof.
  refine (text_duration_discards_transcript AudioExamples.ok MoreExamples.text_duration
            "video.mp4" true AudioExamples.empty_world "audio.mp3" _ _ _ "12.5"
            eq_refl eq_refl _ _).
  - reflexivity.
  - discriminate.
Defined.

(** *** The command line *)

(** [main] of the audio script.  With no URL it prints the usage line and
    ends with status 1, touching nothing.  With a URL and a client that can
    be built, [process_video] runs on the first argument with cleanup on and
    always returns a result, which is printed as one JSON document, whether
    the pipeline succeeded or failed.  An exception reaches the top only
    from building the client, before anything is processed, or from a
    [print] that fails, in which case nothing is printed; a failed [print]
    of the result comes after the pipeline has run. *)
Theorem audio_main_exit (C : AudioCli.Cli) w :
  ((length (AudioCli.argv C) < 2)%nat ->
     (AudioCli.print_error C (AudioCli.Text "Usage: python audio_processor.py <video_url>")
      = None ->
      AudioCli.main C w
      = (SystemExit 1,
         [AudioCli.Text "Usage: python audio_processor.py <video_url>"], w)) /\
     (forall e,
        AudioCli.print_error C (AudioCli.Text "Usage: python audio_processor.py <video_url>")
        = Some e ->
        AudioCli.main C w = (Uncaught e, [], w))) /\
  ((2 <= length (AudioCli.argv C))%nat ->
     (forall e, AudioCli.client_error C = Some e ->
                AudioCli.main C w = (Uncaught e, [], w)) /\
     (AudioCli.client_error C = None ->
        exists result w',
          process_video (AudioCli.tools C) (audio_processor (AudioCli.tools C))
            (nth 1 (AudioCli.argv C) "") true w = (Return result, w') /\
          (AudioCli.print_error C (AudioCli.Json result) = None ->
           AudioCli.main C w = (Finished, [AudioCli.Json result], w')) /\
          (forall e, AudioCli.print_error C (AudioCli.Json result) = Some e ->
                     AudioCli.main C w = (Uncaught e, [], w')))) /\
  (forall e,
      fst (fst (AudioCli.main C w)) = Uncaught e ->
      AudioCli.client_error C = Some e \/ exists p, AudioCli.print_error C p = Some e).
Proof.
  assert (Hrun : forall url, exists result w',
    process_video (AudioCli.tools C) (audio_processor (AudioCli.tools C)) url true w
    = (Return result, w')).
  { intros url. rewrite process_video_unfold.
    destruct (self_extract_audio_from_video (audio_processor (AudioCli.tools C)) url None w)
      as [[p|e] w1].
    - destruct (after_fetch (audio_processor (AudioCli.tools C)) p w1) as [o w2].
      eexists; eexists; reflexivity.
    - eexists; eexists; reflexivity. }
  unfold AudioCli.main. split; [|split].
  - intros Hlen. replace (length (AudioCli.argv C) <? 2)%nat with true
      by (symmetry; apply Nat.ltb_lt; exact Hlen).
    split; [intros ->; reflexivity|intros e ->; reflexivity].
  - intros Hlen. replace (length (AudioCli.argv C) <? 2)%nat with false
      by (symmetry; apply Nat.ltb_ge; exact Hlen). split.
    + intros e ->. reflexivity.
    + intros ->. destruct (Hrun (nth 1 (AudioCli.argv C) "")) as (result & w' & Hr).
      exists result, w'. rewrite Hr. split; [reflexivity|].
      split; [intros ->; reflexivity|intros e ->; reflexivity].
  - intros e. destruct (length (AudioCli.argv C) <? 2)%nat.
    + destruct (AudioCli.print_error C _) as [e'|] eqn:Hprint; simpl; [|discriminate].
      intros [= <-]. right. eauto.
    + destruct (AudioCli.client_error C) as [e'|]; simpl; [intros [= <-]; auto|].
      destruct (Hrun (nth 1 (AudioCli.argv C) "")) as (result & w' & ->).
      destruct (AudioCli.print_error C (AudioCli.Json result)) as [e'|] eqn:Hprint; simpl;
        [|discriminate].
      intros [= <-]. right. eauto.
Qed.

(** A start with one URL whose extraction fails: the script still ends
    normally, and the document printed reports the failure. *)
Example audio_main_failed_run :
  match AudioCli.main MoreExamples.one_url AudioExamples.empty_world with
  | (Finished, [AudioCli.Json result], _) => result !! "success" = Some (PyBool false)
  | _ => False
  end.
Proof. vm_compute. reflexivity. Qed.

(** The same start on a standard output that cannot encode the Cyrillic
    message: the exception of [print] reaches the top and nothing is
    printed. *)
Example audio_main_print_fails :
  fst (AudioCli.main MoreExamples.one_url_ascii AudioExamples.empty_world)
  = (Uncaught (OtherError "UnicodeEncodeError"
       "'ascii' codec can't encode characters in position 69-74: ordinal not in range(128)"),
     []).
Proof. vm_compute. reflexivity. Qed.

End AudioMore.

(** ** The yt-dlp template *)

Section Template.
Import Py AudioProcessor AudioSpec.

Lemma replace_from_step old new c s :
  replace_from old new (String c s) 0
  = if String.prefix old (String c s)
    then new +:+ replace_from old new s (String.length old - 1)
    else String c (replace_from old new s 0).
Proof. reflexivity. Qed.

(** Without an occurrence there is nothing to replace. *)
Lemma replace_absent old new : forall s, contains old s = false -> replace old new s = s.
Proof.
  unfold replace. induction s as [|c s IH]; intros H; [reflexivity|].
  rewrite contains_step in H. apply orb_false_iff in H as [Hp Hc].
  rewrite replace_from_step, Hp, (IH Hc). reflexivity.
Qed.

(** An occurrence of [.mp3] cannot begin in [x] and end in a following
    [.mp3]. *)
Lemma prefix_mp3_straddle x :
  String.prefix ".mp3" (x +:+ ".mp3") = true -> x = "" \/ String.prefix ".mp3" x = true.
Proof.
  intros H. destruct x as [|c1 x]; [left; reflexivity|right].
  rewrite append_cons, prefix_cons in H. rewrite prefix_cons.
  destruct (ascii_dec "." c1) as [_|]; [|discriminate H].
  destruct x as [|c2 x].
  { change ("" +:+ ".mp3") with ".mp3" in H. rewrite prefix_cons in H.
    destruct (ascii_dec "m" ".") as [E|]; [discriminate E|discriminate H]. }
  rewrite append_cons, prefix_cons in H. rewrite prefix_cons.
  destruct (ascii_dec "m" c2) as [_|]; [|discriminate H].
  destruct x as [|c3 x].
  { change ("" +:+ ".mp3") with ".mp3" in H. rewrite prefix_cons in H.
    destruct (ascii_dec "p" ".") as [E|]; [discriminate E|discriminate H]. }
  rewrite append_cons, prefix_cons in H. rewrite prefix_cons.
  destruct (ascii_dec "p" c3) as [_|]; [|discriminate H].
  destruct x as [|c4 x].
  { change ("" +:+ ".mp3") with ".mp3" in H. rewrite prefix_cons in H.
    destruct (ascii_dec "3" ".") as [E|]; [discriminate E|discriminate H]. }
  rewrite append_cons, prefix_cons in H. rewrite prefix_cons.
  destruct (ascii_dec "3" c4) as [_|]; [|discriminate H].
  destruct x; reflexivity.
Qed.

Lemma replace_mp3_suffix new : forall stem,
  contains ".mp3" stem = false ->
  replace ".mp3" new (stem +:+ ".mp3") = stem +:+ new.
Proof.
  unfold replace. induction stem as [|c stem IH]; intros H.
  - change ("" +:+ ".mp3") with ".mp3". change ("" +:+ new) with new.
    rewrite replace_from_step. simpl.
    induction new as [|a new IHn]; [reflexivity|]. rewrite append_cons, IHn. reflexivity.
  - rewrite contains_step in H. apply orb_false_iff in H as [Hp Hc].
    rewrite !append_cons, replace_from_step.
    destruct (String.prefix ".mp3" (String c (stem +:+ ".mp3"))) eqn:Hq.
    + rewrite <- append_cons in Hq. apply prefix_mp3_straddle in Hq as [Hq|Hq];
        [discriminate Hq|congruence].
    + rewrite (IH Hc). reflexivity.
Qed.

Lemma download_calls E youtube_url output_path w path w1 :
  output_file E output_path w = (Return path, w1) ->
  new_calls w (snd (download_youtube_audio E youtube_url output_path w))
  = [YtDlp youtube_url (replace ".mp3" ".%(ext)s" path)].
Proof.
  intros Hfile.
  unfold download_youtube_audio, try_except, bind, ydl_download, raise, ret.
  rewrite Hfile.
  destruct (output_file_run E output_path w) as [(path' & w1' & Hfile' & Hc)|(e & Hfile')];
    rewrite Hfile in Hfile'; [|discriminate Hfile'].
  injection Hfile' as <- <-.
  destruct (ytdlp_error E youtube_url (replace ".mp3" ".%(ext)s" path)); simpl;
    apply new_calls_one; simpl; rewrite Hc; reflexivity.
Qed.

(** The template [download_youtube_audio] hands to yt-dlp.  For an output
    file [stem.mp3] with no other [.mp3] in its name, as a temporary file
    has, it is [stem.%(ext)s], so that the converted audio lands on the path
    returned; for a path given by the caller that holds no [.mp3] it is the
    path itself, with no placeholder. *)
Theorem download_template E youtube_url output_path w path w1 :
  output_file E output_path w = (Return path, w1) ->
  (forall stem, path = stem +:+ ".mp3" -> contains ".mp3" stem = false ->
     new_calls w (snd (download_youtube_audio E youtube_url output_path w))
     = [YtDlp youtube_url (stem +:+ ".%(ext)s")]) /\
  (contains ".mp3" path = false ->
     new_calls w (snd (download_youtube_audio E youtube_url output_path w))
     = [YtDlp youtube_url path]).
Proof.
  intros Hfile. rewrite (download_calls _ _ _ _ _ _ Hfile). split.
  - intros stem -> Hstem. rewrite replace_mp3_suffix by exact Hstem. reflexivity.
  - intros Habsent. rewrite replace_absent by exact Habsent. reflexivity.
Qed.

Lemma download_template_witness :
  (forall stem, AudioExamples.tmp = stem +:+ ".mp3" -> contains ".mp3" stem = false ->
     new_calls AudioExamples.empty_world
       (snd (download_youtube_audio AudioExamples.ok "https://youtu.be/abc123" None
               AudioExamples.empty_world))
     = [YtDlp "https://youtu.be/abc123" (stem +:+ ".%(ext)s")]) /\
  (contains ".mp3" AudioExamples.tmp = false ->
     new_calls AudioExamples.empty_world
       (snd (download_youtube_audio AudioExamples.ok "https://youtu.be/abc123" None
               AudioExamples.empty_world))
     = [YtDlp "https://youtu.be/abc123" AudioExamples.tmp]).
Proof.
  exact (download_template AudioExamples.ok "https://youtu.be/abc123" None
           AudioExamples.empty_world AudioExamples.tmp _ eq_refl).
Defined.

End Template.

(** ** More of the search *)

Section SearchMore.
Import Py TikTokSearch SearchSpec MoreSpec.
Context {ops : StrOps}.
Local Open Scope py_scope.

(** *** The records *)

Lemma hashtag_names_truthy : forall tags names,
  hashtag_names tags = Return names -> Forall (fun name => truthy name = true) names.
Proof.
  induction tags as [|tag tags IH]; intros names H; simpl in H.
  - injection H as <-. constructor.
  - apply obind_Return in H as (named & Hnamed & H).
    destruct (truthy named) eqn:Htruthy; [|apply IH; exact H].
    apply obind_Return in H as (name & Hname & H).
    apply obind_Return in H as (rest & Hrest & H). injection H as <-.
    constructor; [|apply IH; exact Hrest].
    destruct tag as [| | | | | |kvs]; try discriminate Hnamed.
    simpl in Hnamed, Hname. destruct (assoc "hashtagName" kvs) as [v|].
    + injection Hnamed as <-. injection Hname as <-. exact Htruthy.
    + injection Hnamed as <-. discriminate Htruthy.
Qed.

(** Every record has the same fourteen keys in the same order; its platform
    is [tiktok], its id is that of the video, its author is the username
    read from the video and its URL is built from the two, its duration is
    never zero or missing, and every hashtag in it is truthy.  A record is
    built only when reading the username does not raise; a username that is
    [None] gives the author [None] and [@None] in the URL. *)
Theorem video_record_shape default_title video video_dict record :
  video_data default_title video video_dict = Return record ->
  keys_of record = record_keys /\
  get record "platform" PyNone = Return (PyStr "tiktok") /\
  get record "video_id" PyNone = Return (PyStr (video_id video)) /\
  (exists user,
      author_username video = Return user /\
      get record "author" PyNone
      = Return (match user with Some name => PyStr name | None => PyNone end) /\
      get record "url" PyNone
      = Return (PyStr ("https://www.tiktok.com/@"
                       +:+ match user with Some name => name | None => "None" end
                       +:+ "/video/" +:+ video_id video))) /\
  (exists seconds, get record "duration" PyNone = Return seconds /\ truthy seconds = true) /\
  (exists names,
      get record "hashtags" PyNone = Return (PyList names) /\
      Forall (fun name => truthy name = true) names).
Proof.
  unfold video_data. intros H.
  do 2 (apply obind_Return in H; destruct H as (? & _ & H)).
  apply obind_Return in H as (user & Huser & H).
  do 9 (apply obind_Return in H; destruct H as (? & _ & H)).
  apply obind_Return in H as (seconds & _ & H).
  apply obind_Return in H as (? & _ & H).
  apply obind_Return in H as (user' & Huser' & H).
  do 2 (apply obind_Return in H; destruct H as (? & _ & H)).
  apply obind_Return in H as (names & Hnames & H).
  do 2 (apply obind_Return in H; destruct H as (? & _ & H)).
  injection H as <-.
  rewrite Huser in Huser'. injection Huser' as <-.
  repeat split.
  - exists user. split; [exact Huser|]. destruct user; split; reflexivity.
  - eexists. split; [reflexivity|].
    unfold py_or. destruct (truthy seconds) eqn:Hs; [exact Hs|reflexivity].
  - exists names. split; [reflexivity|]. apply (hashtag_names_truthy _ _ Hnames).
Qed.

(** In the hashtag tier a video whose data holds none of the optional keys
    still gives a record, which is appended and counted, with the
    defaults: the title of the tier, empty description and thumbnail, zero
    counts, a duration of 30, no hashtags, no music, and the text of the
    empty string as publication time. *)
Theorem video_record_defaults query video kvs user l :
  as_dict video = PyDict kvs ->
  author_username video = Return (Some user) ->
  assoc "desc" kvs = None -> assoc "video" kvs = None -> assoc "stats" kvs = None ->
  assoc "createTime" kvs = None -> assoc "textExtra" kvs = None ->
  assoc "music" kvs = None ->
  hashtag_item query video l
  = (Return tt,
     Locals
       (videos_var l ++ [PyDict [
          ("video_id", PyStr (video_id video));
          ("platform", PyStr "tiktok");
          ("title", PyStr ("TikTok video about " +:+ query));
          ("description", PyStr "");
          ("url", PyStr ("https://www.tiktok.com/@" +:+ user +:+ "/video/"
                         +:+ video_id video));
          ("thumbnail_url", PyStr "");
          ("views", PyInt 0);
          ("likes", PyInt 0);
          ("comments", PyInt 0);
          ("duration", PyInt 30);
          ("published_at", PyStr (py_str (PyStr "")));
          ("author", PyStr user);
          ("hashtags", PyList []);
          ("music", PyStr "")]])%list
       (video_count_var l + 1)).
Proof.
  intros Hdict Huser Hdesc Hvideo Hstats Htime Htags Hmusic.
  rewrite hashtag_item_run. unfold hashtag_record, video_data, get, obind.
  rewrite Hdict, Huser, Hdesc, Hvideo, Hstats, Htime, Htags, Hmusic. reflexivity.
Qed.

(** *** The hashtag tier *)



(** *** The shape of every result *)

(** Whatever happens, the count reported is the number of videos returned,
    and success is reported exactly when there is at least one. *)
Theorem search_result_shape E query max_results :
  exists r,
    search_tiktok_videos E query max_results = Return r /\
    total_found r = Z.of_nat (length (videos r)) /\
    (success r = true <-> videos r <> []).
Proof.
  rewrite search_unfold.
  destruct (with_api E query max_results (Locals [] 0)) as [[[]|e] l].
  - destruct (videos_var l) as [|v vs]; eexists; (split; [reflexivity|]); simpl.
    + split; [reflexivity|]. split; [discriminate|congruence].
    + split; [reflexivity|]. split; [discriminate|reflexivity].
  - eexists. split; [reflexivity|]. simpl. split; [reflexivity|].
    split; [discriminate|congruence].
Qed.

(** *** Queries *)

Lemma replace_spaces : forall s, replace " " "" s = without_spaces s.
Proof.
  unfold replace. induction s as [|c s IH]; [reflexivity|].
  simpl without_spaces. rewrite replace_from_step, prefix_cons.
  destruct (ascii_dec " " c) as [<-|Hne].
  - simpl Ascii.eqb. cbn [String.length Nat.sub]. rewrite IH.
    destruct s; reflexivity.
  - destruct (Ascii.eqb c " ") eqn:Heq; [apply Ascii.eqb_eq in Heq; congruence|].
    rewrite IH. reflexivity.
Qed.

(** The hashtag asked for is the lower-cased query without its space
    characters: words are joined, and a tab or a line break stays in the
    name. *)
Theorem hashtag_name E query max_results :
  exists count,
    collect_videos E query max_results (Locals [] 0)
    = (Return tt,
       Locals
         (hashtag_records query max_results
            (feed_items (hashtag_videos E (str_lower (without_spaces query)) max_results))
          ++ match fst (hashtag_loop query max_results
                          (hashtag_videos E (str_lower (without_spaces query)) max_results)
                          (Locals [] 0)) with
             | Return _ => []
             | Raise _ =>
                 trending_records query max_results
                   (feed_items (trending_videos E max_results))
             end)%list
         count).
Proof.
  destruct (collect_videos_run E query max_results 0) as [count H].
  exists count. rewrite <- replace_spaces. exact H.
Qed.



(** *** The command line *)

(** [main] of the search script.  With no query it prints the three usage
    lines and ends with status 1.  With only a query it searches for at
    most 5 results, with a second argument for [int] of it; the search
    always returns a result, which is printed as one JSON document.  An
    exception reaches the top only from [int] on the second argument,
    before any search, or from a [print] that fails. *)
Theorem search_main_exit {ints : SearchCli.IntOps} print_error argv E :
  ((length argv < 2)%nat ->
     print_error (SearchCli.Text "Usage: python tiktok_search.py <query> [max_results]")
     = None ->
     print_error (SearchCli.Text "Note: Set ms_token environment variable for better results")
     = None ->
     print_error (SearchCli.Text "Get ms_token: Go to tiktok.com -> F12 -> Application -> Cookies -> Copy msToken value")
     = None ->
     SearchCli.main print_error argv E
     = (SystemExit 1,
        [SearchCli.Text "Usage: python tiktok_search.py <query> [max_results]";
         SearchCli.Text "Note: Set ms_token environment variable for better results";
         SearchCli.Text "Get ms_token: Go to tiktok.com -> F12 -> Application -> Cookies -> Copy msToken value"])) /\
  (length argv = 2%nat ->
     exists r,
       search_tiktok_videos E (nth 1 argv "") 5 = Return r /\
       (print_error (SearchCli.Json r) = None ->
        SearchCli.main print_error argv E = (Finished, [SearchCli.Json r])) /\
       (forall e, print_error (SearchCli.Json r) = Some e ->
                  SearchCli.main print_error argv E = (Uncaught e, []))) /\
  ((3 <= length argv)%nat ->
     (forall e, SearchCli.py_int (nth 2 argv "") = Raise e ->
                SearchCli.main print_error argv E = (Uncaught e, [])) /\
     (forall n, SearchCli.py_int (nth 2 argv "") = Return n ->
        exists r,
          search_tiktok_videos E (nth 1 argv "") n = Return r /\
          (print_error (SearchCli.Json r) = None ->
           SearchCli.main print_error argv E = (Finished, [SearchCli.Json r])) /\
          (forall e, print_error (SearchCli.Json r) = Some e ->
                     SearchCli.main print_error argv E = (Uncaught e, [])))) /\
  (forall e,
      fst (SearchCli.main print_error argv E) = Uncaught e ->
      ((3 <= length argv)%nat /\ SearchCli.py_int (nth 2 argv "") = Raise e) \/
      exists p, print_error p = Some e).
Proof.
  assert (Hrun : forall q n, exists r, search_tiktok_videos E q n = Return r).
  { intros q n. rewrite search_unfold.
    destruct (with_api E q n (Locals [] 0)) as [[[]|e] l]; eexists; reflexivity. }
  assert (Hprint : forall r,
    (print_error (SearchCli.Json r) = None ->
     SearchCli.finish Finished (SearchCli.print print_error (SearchCli.Json r) [])
     = (Finished, [SearchCli.Json r])) /\
    (forall e, print_error (SearchCli.Json r) = Some e ->
     SearchCli.finish Finished (SearchCli.print print_error (SearchCli.Json r) [])
     = (Uncaught e, []))).
  { intros r. unfold SearchCli.finish, SearchCli.print.
    split; [intros ->; reflexivity|intros e ->; reflexivity]. }
  unfold SearchCli.main. split; [|split; [|split]].
  - intros Hlen H1 H2 H3. replace (length argv <? 2)%nat with true
      by (symmetry; apply Nat.ltb_lt; exact Hlen).
    unfold SearchCli.usage, SearchCli.print_all, SearchCli.print, bind, ret.
    rewrite H1. cbn [app]. rewrite H2. cbn [app]. rewrite H3. reflexivity.
  - intros Hlen. rewrite Hlen. simpl.
    destruct (Hrun (nth 1 argv "") 5) as [r Hr]. exists r. rewrite Hr.
    split; [reflexivity|apply Hprint].
  - intros Hlen.
    replace (length argv <? 2)%nat with false by (symmetry; apply Nat.ltb_ge; lia).
    replace (2 <? length argv)%nat with true by (symmetry; apply Nat.ltb_lt; lia).
    split.
    + intros e ->. reflexivity.
    + intros n ->. destruct (Hrun (nth 1 argv "") n) as [r Hr]. exists r. rewrite Hr.
      split; [reflexivity|apply Hprint].
  - intros e. destruct (length argv <? 2)%nat eqn:Hshort.
    + unfold SearchCli.usage, SearchCli.print_all, SearchCli.print, bind, ret.
      destruct (print_error (SearchCli.Text "Usage: python tiktok_search.py <query> [max_results]"))
        as [e1|] eqn:H1; [simpl; intros [= <-]; right; eauto|].
      cbn [app].
      destruct (print_error (SearchCli.Text "Note: Set ms_token environment variable for better results"))
        as [e2|] eqn:H2; [simpl; intros [= <-]; right; eauto|].
      cbn [app].
      destruct (print_error (SearchCli.Text "Get ms_token: Go to tiktok.com -> F12 -> Application -> Cookies -> Copy msToken value"))
        as [e3|] eqn:H3; [simpl; intros [= <-]; right; eauto|].
      simpl. discriminate.
    + apply Nat.ltb_ge in Hshort.
      assert (Hsearch : forall n,
        fst (match search_tiktok_videos E (nth 1 argv "") n with
             | Return result =>
                 SearchCli.finish Finished
                   (SearchCli.print print_error (SearchCli.Json result) [])
             | Raise e0 => (Uncaught e0, [])
             end) = Uncaught e ->
        exists p, print_error p = Some e).
      { intros n. destruct (Hrun (nth 1 argv "") n) as [r ->].
        unfold SearchCli.finish, SearchCli.print.
        destruct (print_error (SearchCli.Json r)) as [e'|] eqn:Hp; simpl; [|discriminate].
        intros [= <-]. eauto. }
      destruct (2 <? length argv)%nat eqn:Hlong.
      * apply Nat.ltb_lt in Hlong.
        destruct (SearchCli.py_int (nth 2 argv "")) as [n|e'] eqn:Hint.
        -- intros H. right. exact (Hsearch n H).
        -- simpl. intros [= <-]. left. split; [lia|reflexivity].
      * intros H. right. exact (Hsearch 5 H).
Qed.

End SearchMore.

(** *** Runs *)

Section SearchMoreRuns.
Import Py TikTokSearch SearchSpec MoreSpec.

Lemma video_record_shape_witness :
  let video := SearchExamples.video "1" "alice" "a cat" in
  let record := PyDict [
    ("video_id", PyStr "1"); ("platform", PyStr "tiktok"); ("title", PyStr "a cat");
    ("description", PyStr "a cat"); ("url", PyStr "https://www.tiktok.com/@alice/video/1");
    ("thumbnail_url", PyStr ""); ("views", PyInt 0); ("likes", PyInt 0);
    ("comments", PyInt 0); ("duration", PyInt 30); ("published_at", PyStr "1700000000");
    ("author", PyStr "alice"); ("hashtags", PyList []); ("music", PyStr "")] in
  keys_of record = record_keys /\
  get record "platform" PyNone = Return (PyStr "tiktok") /\
  get record "video_id" PyNone = Return (PyStr (video_id video)) /\
  (exists user,
      author_username video = Return user /\
      get record "author" PyNone
      = Return (match user with Some name => PyStr name | None => PyNone end) /\
      get record "url" PyNone
      = Return (PyStr ("https://www.tiktok.com/@"
                       +:+ match user with Some name => name | None => "None" end
                       +:+ "/video/" +:+ video_id video))) /\
  (exists seconds, get record "duration" PyNone = Return seconds /\ truthy seconds = true) /\
  (exists names,
      get record "hashtags" PyNone = Return (PyList names) /\
      Forall (fun name => truthy name = true) names).
Proof.
  exact (video_record_shape (ops := ascii_ops) "Trending TikTok video"
           (SearchExamples.video "1" "alice" "a cat")
           (as_dict (SearchExamples.video "1" "alice" "a cat")) _ eq_refl).
Defined.

(** A video whose author has no username still gives a record. *)
Example nameless_record :
  exists record,
    video_data (ops := ascii_ops) "TikTok video about cat" MoreSearchExamples.nameless
      (as_dict MoreSearchExamples.nameless) = Return record /\
    get record "author" PyNone = Return PyNone /\
    get record "url" PyNone = Return (PyStr "https://www.tiktok.com/@None/video/9").
Proof. eexists. split; [vm_compute; reflexivity|]. split; reflexivity. Qed.

Lemma video_record_defaults_witness :
  hashtag_item (ops := ascii_ops) "cat" MoreSearchExamples.bare (Locals [] 0)
  = (Return tt,
     Locals
       ([] ++ [PyDict [
          ("video_id", PyStr (video_id MoreSearchExamples.bare));
          ("platform", PyStr "tiktok");
          ("title", PyStr ("TikTok video about " +:+ "cat"));
          ("description", PyStr "");
          ("url", PyStr ("https://www.tiktok.com/@" +:+ "alice" +:+ "/video/"
                         +:+ video_id MoreSearchExamples.bare));
          ("thumbnail_url", PyStr "");
          ("views", PyInt 0);
          ("likes", PyInt 0);
          ("comments", PyInt 0);
          ("duration", PyInt 30);
          ("published_at", PyStr (@py_str ascii_ops (PyStr "")));
          ("author", PyStr "alice");
          ("hashtags", PyList []);
          ("music", PyStr "")]])%list
       (0 + 1)).
Proof.
  exact (video_record_defaults (ops := ascii_ops) "cat" MoreSearchExamples.bare [] "alice"
           (Locals [] 0) eq_refl eq_refl eq_refl eq_refl eq_refl eq_refl eq_refl eq_refl).
Defined.


Example hashtag_tier_skips_orphan :
  exists r,
    search_tiktok_videos (ops := ascii_ops) MoreSearchExamples.hashtag_ends "cat" 5
    = Return r /\ total_found r = 2.
Proof. eexists. split; [vm_compute; reflexivity|reflexivity]. Qed.


(** The command line on concrete arguments: a count that is not a number
    ends the script with [ValueError]. *)
Example search_main_bad_count :
  SearchCli.main (ops := ascii_ops) (ints := SearchCli.ascii_int) (fun _ => None)
    ["tiktok_search.py"; "cat"; "five"] SearchExamples.cat_comes_third
  = (Uncaught (OtherError "ValueError" "invalid literal for int() with base 10: 'five'"), []).
Proof. vm_compute. reflexivity. Qed.

(** No query: the three usage lines and status 1; and on a standard
    output that fails from the second line on, the first line only. *)
Example search_main_usage :
  SearchCli.main (ops := ascii_ops) (ints := SearchCli.ascii_int) (fun _ => None)
    ["tiktok_search.py"] SearchExamples.cat_comes_third
  = (SystemExit 1,
     [SearchCli.Text "Usage: python tiktok_search.py <query> [max_results]";
      SearchCli.Text "Note: Set ms_token environment variable for better results";
      SearchCli.Text "Get ms_token: Go to tiktok.com -> F12 -> Application -> Cookies -> Copy msToken value"]) /\
  SearchCli.main (ops := ascii_ops) (ints := SearchCli.ascii_int)
    (fun p => match p with
              | SearchCli.Text (String "U" _) => None
              | _ => Some (OtherError "BrokenPipeError" "[Errno 32] Broken pipe")
              end)
    ["tiktok_search.py"] SearchExamples.cat_comes_third
  = (Uncaught (OtherError "BrokenPipeError" "[Errno 32] Broken pipe"),
     [SearchCli.Text "Usage: python tiktok_search.py <query> [max_results]"]).
Proof. split; vm_compute; reflexivity. Qed.

End SearchMoreRuns.
